(** * ai-perfume-chooser: the OTP authentication core

    A shallow embedding of [backend/src/utils/auth.ts] (identifier hashing,
    OTP generation), of the three handlers of [backend/src/routes/auth.ts]
    (signup, login, verify) and of the part of the SQL schema they rely on
    (tables [users] and [login_codes] with their keys and indexes).

    Modelling conventions.
    - A JavaScript string is a Rocq [string] read as a sequence of UTF-16
      code units in the range U+0000..U+00FF (the Latin-1 repertoire).  On
      this repertoire [trim], [toLowerCase], the regular expression [\D] and
      the UTF-8 encoding used by [crypto] are given in full.
    - A [Date] is its epoch value in milliseconds, a [Z].  Minute arithmetic
      is done in a time zone of constant offset, where adding five minutes
      adds 300000 ms.
    - What the handlers take from their environment (the clock, the random
      integer, the identifiers and timestamps the storage layer generates)
      is an explicit [Env] argument.
    - The storage layer is a pair of tables with the constraints of the
      migration script; every query the handlers send is recorded in a log,
      so that "before touching storage" is a statement about that log. *)

From Stdlib Require Import ZArith NArith List Bool Lia.
From Stdlib Require Import Strings.Ascii Strings.String.
Import ListNotations.

Local Open Scope string_scope.
Local Open Scope Z_scope.

(** ** JavaScript string primitives used by the source *)

Module Js.

Definition code_unit (c : ascii) : Z := Z.of_N (N_of_ascii c).

(** WhiteSpace and LineTerminator code points below U+0100: TAB, LF, VT,
    FF, CR, SPACE and NO-BREAK SPACE. *)
Definition is_whitespace (c : ascii) : bool :=
  let n := code_unit c in
  ((9 <=? n) && (n <=? 13)) || (n =? 32) || (n =? 160).

Definition is_digit (c : ascii) : bool :=
  let n := code_unit c in (48 <=? n) && (n <=? 57).

(** Letters with a lower-case partner: A-Z, and U+00C0..U+00DE except the
    multiplication sign U+00D7. *)
Definition is_upper (c : ascii) : bool :=
  let n := code_unit c in
  ((65 <=? n) && (n <=? 90)) ||
  ((192 <=? n) && (n <=? 222) && negb (n =? 215)).

Definition lower_char (c : ascii) : ascii :=
  if is_upper c then ascii_of_N (Z.to_N (code_unit c + 32)) else c.

Fixpoint toLowerCase (s : string) : string :=
  match s with
  | EmptyString => EmptyString
  | String c r => String (lower_char c) (toLowerCase r)
  end.

Fixpoint trimStart (s : string) : string :=
  match s with
  | EmptyString => EmptyString
  | String c r => if is_whitespace c then trimStart r else s
  end.

Fixpoint trimEnd (s : string) : string :=
  match s with
  | EmptyString => EmptyString
  | String c r =>
      match trimEnd r with
      | EmptyString => if is_whitespace c then EmptyString
                       else String c EmptyString
      | r' => String c r'
      end
  end.

Definition trim (s : string) : string := trimEnd (trimStart s).

(** [s.replace(/\D/g, '')]: every code unit that is not 0-9 is deleted. *)
Fixpoint remove_non_digits (s : string) : string :=
  match s with
  | EmptyString => EmptyString
  | String c r =>
      if is_digit c then String c (remove_non_digits r)
      else remove_non_digits r
  end.

Fixpoint repeat_char (c : ascii) (n : nat) : string :=
  match n with
  | O => EmptyString
  | S k => String c (repeat_char c k)
  end.

(** [s.padStart(target, fill)] for a one-character [fill]. *)
Definition padStart (target : nat) (fill : ascii) (s : string) : string :=
  repeat_char fill (target - String.length s) ++ s.

(** [n.toString()] for a non-negative integer: its decimal digits, most
    significant first, computed by repeated division. *)
Definition digit_char (d : N) : ascii := ascii_of_N (48 + d).

Fixpoint digits_from (fuel : nat) (n : N) (acc : string) : string :=
  let acc' := String (digit_char (n mod 10)) acc in
  match fuel with
  | O => acc'
  | S f => if (n / 10 =? 0)%N then acc' else digits_from f (n / 10)%N acc'
  end.

Definition toString (n : N) : string :=
  digits_from (N.to_nat (N.log2 n)) n EmptyString.

(** UTF-8 encoding of a string of code units below U+0100. *)
Definition utf8_char (c : ascii) : list Z :=
  let n := code_unit c in
  if n <? 128 then [n]
  else [Z.lor 192 (Z.shiftr n 6); Z.lor 128 (Z.land n 63)].

Fixpoint utf8_encode (s : string) : list Z :=
  match s with
  | EmptyString => []
  | String c r => utf8_char c ++ utf8_encode r
  end.

End Js.

(** ** SHA-256 (FIPS 180-4), as [crypto.createHash('sha256')] computes it *)

Module Sha256.

Definition mask32 : Z := 0xFFFFFFFF.
Definition w32 (x : Z) : Z := Z.land x mask32.
Definition add32 (x y : Z) : Z := w32 (x + y).
Definition rotr (n x : Z) : Z :=
  Z.lor (Z.shiftr x n) (w32 (Z.shiftl x (32 - n))).
Definition shr (n x : Z) : Z := Z.shiftr x n.

Definition Ch (x y z : Z) : Z :=
  Z.lxor (Z.land x y) (Z.land (Z.lxor x mask32) z).
Definition Maj (x y z : Z) : Z :=
  Z.lxor (Z.lxor (Z.land x y) (Z.land x z)) (Z.land y z).
Definition Sigma0 (x : Z) : Z :=
  Z.lxor (Z.lxor (rotr 2 x) (rotr 13 x)) (rotr 22 x).
Definition Sigma1 (x : Z) : Z :=
  Z.lxor (Z.lxor (rotr 6 x) (rotr 11 x)) (rotr 25 x).
Definition sigma0 (x : Z) : Z :=
  Z.lxor (Z.lxor (rotr 7 x) (rotr 18 x)) (shr 3 x).
Definition sigma1 (x : Z) : Z :=
  Z.lxor (Z.lxor (rotr 17 x) (rotr 19 x)) (shr 10 x).

(** The round constants, eight rounds to a row. *)
Definition K : list Z :=
  [0x428a2f98; 0x71374491; 0xb5c0fbcf; 0xe9b5dba5;
   0x3956c25b; 0x59f111f1; 0x923f82a4; 0xab1c5ed5] ++
  [0xd807aa98; 0x12835b01; 0x243185be; 0x550c7dc3;
   0x72be5d74; 0x80deb1fe; 0x9bdc06a7; 0xc19bf174] ++
  [0xe49b69c1; 0xefbe4786; 0x0fc19dc6; 0x240ca1cc;
   0x2de92c6f; 0x4a7484aa; 0x5cb0a9dc; 0x76f988da] ++
  [0x983e5152; 0xa831c66d; 0xb00327c8; 0xbf597fc7;
   0xc6e00bf3; 0xd5a79147; 0x06ca6351; 0x14292967] ++
  [0x27b70a85; 0x2e1b2138; 0x4d2c6dfc; 0x53380d13;
   0x650a7354; 0x766a0abb; 0x81c2c92e; 0x92722c85] ++
  [0xa2bfe8a1; 0xa81a664b; 0xc24b8b70; 0xc76c51a3;
   0xd192e819; 0xd6990624; 0xf40e3585; 0x106aa070] ++
  [0x19a4c116; 0x1e376c08; 0x2748774c; 0x34b0bcb5;
   0x391c0cb3; 0x4ed8aa4a; 0x5b9cca4f; 0x682e6ff3] ++
  [0x748f82ee; 0x78a5636f; 0x84c87814; 0x8cc70208;
   0x90befffa; 0xa4506ceb; 0xbef9a3f7; 0xc67178f2].

Record state : Type := mkState
  { ha : Z; hb : Z; hc : Z; hd : Z; he : Z; hf : Z; hg : Z; hh : Z }.

Definition H0 : state :=
  mkState 0x6a09e667 0xbb67ae85 0x3c6ef372 0xa54ff53a
          0x510e527f 0x9b05688c 0x1f83d9ab 0x5be0cd19.

(** Padding: the bit 1, zeros up to 56 mod 64 bytes, then the message
    length in bits as a 64-bit big-endian integer. *)
Definition be_bytes (width : nat) (x : Z) : list Z :=
  map (fun i => Z.land (Z.shiftr x (8 * Z.of_nat i)) 255)
      (rev (seq 0 width)).

Definition pad (msg : list Z) : list Z :=
  let len := Z.of_nat (List.length msg) in
  msg ++ [128] ++ repeat 0 (Z.to_nat ((55 - len) mod 64))
      ++ be_bytes 8 (8 * len).

Fixpoint words (bytes : list Z) : list Z :=
  match bytes with
  | b0 :: b1 :: b2 :: b3 :: r =>
      Z.lor (Z.shiftl b0 24)
            (Z.lor (Z.shiftl b1 16) (Z.lor (Z.shiftl b2 8) b3))
      :: words r
  | _ => []
  end.

Fixpoint blocks (fuel : nat) (ws : list Z) : list (list Z) :=
  match fuel, ws with
  | S f, _ :: _ => firstn 16 ws :: blocks f (skipn 16 ws)
  | _, _ => []
  end.

(** Message schedule: W_t for t = 16..63 is appended to the block. *)
Fixpoint schedule (n : nat) (w : list Z) : list Z :=
  match n with
  | O => w
  | S k =>
      let t := List.length w in
      let at_ i := nth (t - i) w 0 in
      schedule k
        (w ++ [add32 (add32 (sigma1 (at_ 2%nat)) (at_ 7%nat))
                     (add32 (sigma0 (at_ 15%nat)) (at_ 16%nat))])
  end.

Definition round (s : state) (kw : Z * Z) : state :=
  let t1 := add32 (add32 (add32 (hh s) (Sigma1 (he s)))
                         (add32 (Ch (he s) (hf s) (hg s)) (fst kw)))
                  (snd kw) in
  let t2 := add32 (Sigma0 (ha s)) (Maj (ha s) (hb s) (hc s)) in
  mkState (add32 t1 t2) (ha s) (hb s) (hc s)
          (add32 (hd s) t1) (he s) (hf s) (hg s).

Definition compress (s : state) (block : list Z) : state :=
  let r := fold_left round (combine K (schedule 48 block)) s in
  mkState (add32 (ha s) (ha r)) (add32 (hb s) (hb r))
          (add32 (hc s) (hc r)) (add32 (hd s) (hd r))
          (add32 (he s) (he r)) (add32 (hf s) (hf r))
          (add32 (hg s) (hg r)) (add32 (hh s) (hh r)).

Definition digest (msg : list Z) : state :=
  let ws := words (pad msg) in
  fold_left compress (blocks (List.length ws) ws) H0.

(** [digest('hex')]: two lower-case hexadecimal digits per byte. *)
Definition hex_digit (n : Z) : ascii :=
  let d := Z.land n 15 in
  ascii_of_N (Z.to_N (if d <? 10 then 48 + d else 87 + d)).

Definition hex32 (x : Z) : string :=
  string_of_list_ascii
    (map (fun i => hex_digit (Z.shiftr x (4 * Z.of_nat i)))
         (rev (seq 0 8))).

Definition hex (s : state) : string :=
  hex32 (ha s) ++ hex32 (hb s) ++ hex32 (hc s) ++ hex32 (hd s) ++
  hex32 (he s) ++ hex32 (hf s) ++ hex32 (hg s) ++ hex32 (hh s).

End Sha256.

(** ** backend/src/utils/auth.ts *)

Definition normalizeEmail (email : string) : string :=
  Js.toLowerCase (Js.trim email).

Definition normalizePhone (phone : string) : string :=
  Js.remove_non_digits phone.

Definition hashString (input : string) : string :=
  Sha256.hex (Sha256.digest (Js.utf8_encode input)).

Definition hashEmail (email : string) : string :=
  let normalized := normalizeEmail email in
  hashString normalized.

Definition hashPhone (phone : string) : string :=
  let normalized := normalizePhone phone in
  hashString normalized.

(** [crypto.randomInt(0, 1000000)] is the argument [r]. *)
Definition generateOTP (r : N) : string :=
  let code := r in
  Js.padStart 6 "0"%char (Js.toString code).

(** [new Date()] is the argument [now]. *)
Definition getOTPExpiry (now : Z) (minutes : Z) : Z :=
  now + minutes * 60000.

Definition isOTPValid (now : Z) (expiresAt : Z) : bool :=
  now <? expiresAt.

(** ** The tables of the migration script *)

Module User.
(** Table [users]. *)
Record t : Type := mk
  { id : string; emailHash : string; phoneHash : string; createdAt : Z }.
End User.

Module LoginCode.
(** Table [login_codes]; [consumed] defaults to [false]. *)
Record t : Type := mk
  { id : string; userId : string; code : string; expiresAt : Z;
    consumed : bool; createdAt : Z }.

Definition consume (c : t) : t :=
  mk (id c) (userId c) (code c) (expiresAt c) true (createdAt c).
End LoginCode.

Record Store : Type := mkStore
  { users : list User.t; login_codes : list LoginCode.t }.

Definition empty_store : Store := mkStore [] [].

(** What one request takes from outside the program: [clock] is the value
    of [new Date()], [random] the result of [crypto.randomInt(0, 1000000)],
    [db_clock] the CURRENT_TIMESTAMP default of [createdAt], and the two
    identifiers are the ones generated for the rows the request inserts. *)
Record Env : Type := mkEnv
  { clock : Z; random : N; db_clock : Z;
    new_user_id : string; new_code_id : string }.

(** ** Queries, exceptions and the task monad *)

Inductive Query : Type :=
| QUserFindUnique (emailHash : string)
| QUserCreate (emailHash phoneHash : string)
| QLoginCodeCreate (userId code : string) (expiresAt : Z)
| QLoginCodeFindFirst (userId code : string)
| QLoginCodeUpdate (id : string).

Inductive Exn : Type :=
| TypeError
| PrismaValidationError
| UniqueConstraintFailed (constraint : string)
| ForeignKeyConstraintFailed (constraint : string)
| RecordNotFound.

Inductive Result (A : Type) : Type :=
| Ret (a : A)
| Throw (e : Exn).
Arguments Ret {A} a.
Arguments Throw {A} e.

(** The store together with the log of the queries sent so far. *)
Record World : Type := mkWorld { db : Store; sent : list Query }.

Definition Task (A : Type) : Type := World -> Result A * World.

Definition ret {A} (a : A) : Task A := fun w => (Ret a, w).
Definition throw {A} (e : Exn) : Task A := fun w => (Throw e, w).
Definition bind {A B} (m : Task A) (k : A -> Task B) : Task B :=
  fun w => match m w with
           | (Ret a, w') => k a w'
           | (Throw e, w') => (Throw e, w')
           end.

Notation "x <- m ;; k" := (bind m (fun x => k))
  (at level 61, m at next level, right associativity).

Definition send (q : Query) : Task unit :=
  fun w => (Ret tt, mkWorld (db w) (sent w ++ [q])).
Definition get_store : Task Store := fun w => (Ret (db w), w).
Definition put_store (s : Store) : Task unit :=
  fun w => (Ret tt, mkWorld s (sent w)).

(** ** The storage operations the handlers call *)

Module Prisma.

Definition has_user_id (s : Store) (i : string) : bool :=
  existsb (fun u => User.id u =? i)%string (users s).
Definition has_emailHash (s : Store) (h : string) : bool :=
  existsb (fun u => User.emailHash u =? h)%string (users s).
Definition has_code_id (s : Store) (i : string) : bool :=
  existsb (fun c => LoginCode.id c =? i)%string (login_codes s).

(** [prisma.user.findUnique({ where: { emailHash } })] *)
Definition user_findUnique (h : string) : Task (option User.t) :=
  _ <- send (QUserFindUnique h) ;;
  s <- get_store ;;
  ret (find (fun u => User.emailHash u =? h)%string (users s)).

(** [prisma.user.create({ data: { emailHash, phoneHash } })], under the
    primary key [users_pkey] and the unique index [users_emailHash_key]. *)
Definition user_create (env : Env) (eh ph : string) : Task User.t :=
  _ <- send (QUserCreate eh ph) ;;
  s <- get_store ;;
  if has_user_id s (new_user_id env) then
    throw (UniqueConstraintFailed "users_pkey")
  else if has_emailHash s eh then
    throw (UniqueConstraintFailed "users_emailHash_key")
  else
    let u := User.mk (new_user_id env) eh ph (db_clock env) in
    _ <- put_store (mkStore (users s ++ [u]) (login_codes s)) ;;
    ret u.

(** [prisma.loginCode.create({ data: { userId, code, expiresAt } })],
    under [login_codes_pkey] and the foreign key [login_codes_userId_fkey]. *)
Definition loginCode_create (env : Env) (uid c : string) (exp : Z)
  : Task LoginCode.t :=
  _ <- send (QLoginCodeCreate uid c exp) ;;
  s <- get_store ;;
  if has_code_id s (new_code_id env) then
    throw (UniqueConstraintFailed "login_codes_pkey")
  else if negb (has_user_id s uid) then
    throw (ForeignKeyConstraintFailed "login_codes_userId_fkey")
  else
    let row := LoginCode.mk (new_code_id env) uid c exp false
                            (db_clock env) in
    _ <- put_store (mkStore (users s) (login_codes s ++ [row])) ;;
    ret row.

(** The [where] clause of verify: [{ userId, code, consumed: false }]. *)
Definition matches (uid c : string) (row : LoginCode.t) : bool :=
  (LoginCode.userId row =? uid)%string &&
  (LoginCode.code row =? c)%string &&
  negb (LoginCode.consumed row).

(** [orderBy: { createdAt: 'desc' }] followed by taking the first row:
    a row of greatest [createdAt]; among rows of equal [createdAt] the
    one stored first. *)
Fixpoint latest (rows : list LoginCode.t) : option LoginCode.t :=
  match rows with
  | [] => None
  | r :: rest =>
      match latest rest with
      | Some r' =>
          if LoginCode.createdAt r <? LoginCode.createdAt r'
          then Some r' else Some r
      | None => Some r
      end
  end.

(** [prisma.loginCode.findFirst({ where: ..., orderBy: ... })] *)
Definition loginCode_findFirst (uid c : string)
  : Task (option LoginCode.t) :=
  _ <- send (QLoginCodeFindFirst uid c) ;;
  s <- get_store ;;
  ret (latest (filter (matches uid c) (login_codes s))).

Definition set_consumed (i : string) (row : LoginCode.t) : LoginCode.t :=
  if (LoginCode.id row =? i)%string then LoginCode.consume row else row.

(** [prisma.loginCode.update({ where: { id }, data: { consumed: true } })] *)
Definition loginCode_update (i : string) : Task unit :=
  _ <- send (QLoginCodeUpdate i) ;;
  s <- get_store ;;
  if has_code_id s i then
    put_store (mkStore (users s) (map (set_consumed i) (login_codes s)))
  else throw RecordNotFound.

End Prisma.

(** ** Requests and responses *)

(** A field of [req.body] after [express.json()]: absent, or a JSON scalar.
    Numbers are kept as integers (only being zero matters below); arrays and
    objects are outside the model. *)
Inductive JsonValue : Type :=
| JUndefined
| JNull
| JBool (b : bool)
| JNumber (n : Z)
| JString (s : string).

(** JavaScript truthiness, the meaning of [!email]. *)
Definition truthy (v : JsonValue) : bool :=
  match v with
  | JUndefined | JNull => false
  | JBool b => b
  | JNumber n => negb (n =? 0)
  | JString s => negb (s =? "")%string
  end.

Inductive ErrorKind : Type :=
| BadRequest | Conflict | NotFound | Unauthorized | InternalError.

Definition status_code (k : ErrorKind) : Z :=
  match k with
  | BadRequest => 400
  | Unauthorized => 401
  | NotFound => 404
  | Conflict => 409
  | InternalError => 500
  end.

Inductive Response : Type :=
| Created (message userId otpCode : string)      (* 201 *)
| CodeSent (message userId otpCode : string)     (* 200 *)
| Verified (message cookie_userId : string)      (* 200 and Set-Cookie *)
| Fail (kind : ErrorKind) (error : string).

(** A method of [String.prototype] called on a request field: a value that
    is not a string has no such method and the call throws. *)
Definition call_on_string {A} (f : string -> A) (v : JsonValue) : Task A :=
  match v with
  | JString s => ret (f s)
  | _ => throw TypeError
  end.

(** A request field passed to a query as a [String] column value. *)
Definition string_argument (v : JsonValue) : Task string :=
  match v with
  | JString s => ret s
  | _ => throw PrismaValidationError
  end.

(** ** backend/src/routes/auth.ts *)

(** The body of a handler runs inside [try { ... } catch]. *)
Definition try_catch (body : Task Response) (s : Store)
  : Response * World :=
  match body (mkWorld s []) with
  | (Ret r, w) => (r, w)
  | (Throw _, w) => (Fail InternalError "Internal server error", w)
  end.

Definition signup_message : string :=
  "Account created. Please verify with the code sent to your phone.".

Definition signup_body (env : Env) (email phone : JsonValue)
  : Task Response :=
  if negb (truthy email) || negb (truthy phone) then
    ret (Fail BadRequest "Email and phone are required")
  else
    emailHash <- call_on_string hashEmail email ;;
    phoneHash <- call_on_string hashPhone phone ;;
    existingUser <- Prisma.user_findUnique emailHash ;;
    match existingUser with
    | Some _ => ret (Fail Conflict "Account with this email already exists")
    | None =>
        user <- Prisma.user_create env emailHash phoneHash ;;
        let code := generateOTP (random env) in
        let expiresAt := getOTPExpiry (clock env) 5 in
        _ <- Prisma.loginCode_create env (User.id user) code expiresAt ;;
        ret (Created signup_message (User.id user) code)
    end.

Definition signup (env : Env) (email phone : JsonValue) (s : Store)
  : Response * World :=
  try_catch (signup_body env email phone) s.

Definition login_body (env : Env) (email : JsonValue) : Task Response :=
  if negb (truthy email) then
    ret (Fail BadRequest "Email is required")
  else
    emailHash <- call_on_string hashEmail email ;;
    user <- Prisma.user_findUnique emailHash ;;
    match user with
    | None => ret (Fail NotFound "No account found with this email")
    | Some user =>
        let code := generateOTP (random env) in
        let expiresAt := getOTPExpiry (clock env) 5 in
        _ <- Prisma.loginCode_create env (User.id user) code expiresAt ;;
        ret (CodeSent "Verification code sent to your phone."
                      (User.id user) code)
    end.

Definition login (env : Env) (email : JsonValue) (s : Store)
  : Response * World :=
  try_catch (login_body env email) s.

Definition verify_message : string :=
  "Verification successful. You are now logged in.".

Definition verify_body (env : Env) (userId code : JsonValue)
  : Task Response :=
  if negb (truthy userId) || negb (truthy code) then
    ret (Fail BadRequest "User ID and code are required")
  else
    uid <- string_argument userId ;;
    c <- string_argument code ;;
    loginCode <- Prisma.loginCode_findFirst uid c ;;
    match loginCode with
    | None => ret (Fail Unauthorized "Invalid or expired code")
    | Some loginCode =>
        if negb (isOTPValid (clock env) (LoginCode.expiresAt loginCode)) then
          ret (Fail Unauthorized "Code has expired. Please request a new one.")
        else
          _ <- Prisma.loginCode_update (LoginCode.id loginCode) ;;
          ret (Verified verify_message uid)
    end.

Definition verify (env : Env) (userId code : JsonValue) (s : Store)
  : Response * World :=
  try_catch (verify_body env userId code) s.

(** ** Two verify requests in flight

    A handler runs without interruption up to its next [await]; there the
    query it has sent is executed by the storage layer, and other requests
    may be served in between.  A verify request is therefore a thread with
    two suspension points, the [findFirst] and the [update]. *)

Inductive VerifyThread : Type :=
| AwaitFindFirst (env : Env) (uid c : string)
| AwaitUpdate (uid : string) (loginCode : LoginCode.t)
| Responded (r : Response).

(** From the start of the handler to the first [await]. *)
Definition verify_start (env : Env) (userId code : JsonValue)
  : VerifyThread :=
  if negb (truthy userId) || negb (truthy code) then
    Responded (Fail BadRequest "User ID and code are required")
  else
    match userId, code with
    | JString uid, JString c => AwaitFindFirst env uid c
    | _, _ => Responded (Fail InternalError "Internal server error")
    end.

(** The awaited query, and the handler up to its next [await] or to its
    response. *)
Definition verify_resume (t : VerifyThread) : Task VerifyThread :=
  match t with
  | AwaitFindFirst env uid c =>
      loginCode <- Prisma.loginCode_findFirst uid c ;;
      match loginCode with
      | None => ret (Responded (Fail Unauthorized "Invalid or expired code"))
      | Some loginCode =>
          if negb (isOTPValid (clock env) (LoginCode.expiresAt loginCode))
          then ret (Responded
                      (Fail Unauthorized
                            "Code has expired. Please request a new one."))
          else ret (AwaitUpdate uid loginCode)
      end
  | AwaitUpdate uid loginCode =>
      _ <- Prisma.loginCode_update (LoginCode.id loginCode) ;;
      ret (Responded (Verified verify_message uid))
  | Responded r => ret (Responded r)
  end.

Definition thread_step (t : VerifyThread) (w : World)
  : VerifyThread * World :=
  match verify_resume t w with
  | (Ret t', w') => (t', w')
  | (Throw _, w') =>
      (Responded (Fail InternalError "Internal server error"), w')
  end.

(** Two threads under a schedule: [true] resumes the first thread, [false]
    the second. *)
Fixpoint run (schedule : list bool) (t1 t2 : VerifyThread) (w : World)
  : VerifyThread * VerifyThread * World :=
  match schedule with
  | [] => (t1, t2, w)
  | true :: rest =>
      let (t1', w') := thread_step t1 w in run rest t1' t2 w'
  | false :: rest =>
      let (t2', w') := thread_step t2 w in run rest t1 t2' w'
  end.

(** * Vocabulary of the specification *)

(** ** Strings *)

Fixpoint all_chars (p : ascii -> bool) (s : string) : bool :=
  match s with
  | EmptyString => true
  | String c r => p c && all_chars p r
  end.

Definition blank (s : string) : Prop := all_chars Js.is_whitespace s = true.

Definition is_hex (c : ascii) : bool :=
  let n := Js.code_unit c in
  ((48 <=? n) && (n <=? 57)) || ((97 <=? n) && (n <=? 102)).

(** Two characters that are the same letter in possibly different case. *)
Definition same_letter (a b : ascii) : Prop :=
  a = b \/ (Js.is_upper a = true /\ b = Js.lower_char a)
        \/ (Js.is_upper b = true /\ a = Js.lower_char b).

(** Strings that differ only in letter case, position by position. *)
Inductive case_variant : string -> string -> Prop :=
| cv_empty : case_variant "" ""
| cv_letter a b s t :
    same_letter a b -> case_variant s t ->
    case_variant (String a s) (String b t).

(** Strings that differ only in letter case and in leading or trailing
    whitespace. *)
Definition padded_case_variant (e1 e2 : string) : Prop :=
  exists l1 c1 r1 l2 c2 r2,
    e1 = l1 ++ c1 ++ r1 /\ e2 = l2 ++ c2 ++ r2 /\
    blank l1 /\ blank r1 /\ blank l2 /\ blank r2 /\ case_variant c1 c2.

(** Strings that differ only in letter case and in whitespace, wherever
    the whitespace stands. *)
Inductive case_whitespace_variant : string -> string -> Prop :=
| cw_empty : case_whitespace_variant "" ""
| cw_letter a b s t :
    same_letter a b -> case_whitespace_variant s t ->
    case_whitespace_variant (String a s) (String b t)
| cw_space_left c s t :
    Js.is_whitespace c = true -> case_whitespace_variant s t ->
    case_whitespace_variant (String c s) t
| cw_space_right c s t :
    Js.is_whitespace c = true -> case_whitespace_variant s t ->
    case_whitespace_variant s (String c t).

(** The number a string of decimal digits denotes. *)
Definition digit_value (c : ascii) : N := (N_of_ascii c - 48)%N.

Fixpoint decimal_from (a : N) (s : string) : N :=
  match s with
  | EmptyString => a
  | String c r => decimal_from (10 * a + digit_value c)%N r
  end.

Definition decimal_value (s : string) : N := decimal_from 0 s.

Definition sha256_of_empty : string :=
  "e3b0c44298fc1c149afbf4c8996fb92427ae41e4649b934ca495991b7852b855".

(** ** Login codes *)

(** A row that the [where] clause of verify selects. *)
Definition is_match (uid c : string) (row : LoginCode.t) : Prop :=
  LoginCode.userId row = uid /\ LoginCode.code row = c /\
  LoginCode.consumed row = false.

(** A stored row that the clause selects and that no selected row is more
    recent than. *)
Definition most_recent_match (s : Store) (uid c : string)
  (row : LoginCode.t) : Prop :=
  In row (login_codes s) /\ is_match uid c row /\
  forall r, In r (login_codes s) -> is_match uid c r ->
            LoginCode.createdAt r <= LoginCode.createdAt row.

(** ** Stores *)

(** The stores that the storage operations produce, starting from the empty
    tables, whatever the caller, the arguments and the outcome. *)
Inductive reachable : Store -> Prop :=
| reach_empty : reachable empty_store
| reach_user_create s env eh ph log r w :
    reachable s ->
    Prisma.user_create env eh ph (mkWorld s log) = (r, w) ->
    reachable (db w)
| reach_loginCode_create s env uid c exp log r w :
    reachable s ->
    Prisma.loginCode_create env uid c exp (mkWorld s log) = (r, w) ->
    reachable (db w)
| reach_loginCode_update s i log r w :
    reachable s ->
    Prisma.loginCode_update i (mkWorld s log) = (r, w) ->
    reachable (db w).

(** The constraints of the migration script: the two primary keys, the
    unique index on [emailHash] and the foreign key of [login_codes]. *)
Definition schema_ok (s : Store) : Prop :=
  NoDup (map User.id (users s)) /\
  NoDup (map User.emailHash (users s)) /\
  NoDup (map LoginCode.id (login_codes s)) /\
  (forall c, In c (login_codes s) ->
             exists u, In u (users s) /\ User.id u = LoginCode.userId c).

(** The store after [consumed] has been set on the row [lc]. *)
Definition consume_in (s : Store) (lc : LoginCode.t) : Store :=
  mkStore (users s)
          (map (Prisma.set_consumed (LoginCode.id lc)) (login_codes s)).

(** A task that keeps a property of the store, whatever its result. *)
Definition keeps (P : Store -> Prop) {A} (t : Task A) : Prop :=
  forall w, P (db w) -> P (db (snd (t w))).

(** ** Requests *)

(** A required field that is present but is not a string. *)
Definition malformed (v : JsonValue) : Prop :=
  match v with
  | JNull | JBool _ | JNumber _ => True
  | JUndefined | JString _ => False
  end.

(** ** Normal forms of identifiers *)




(** Phone strings that differ only in characters that are not digits:
    the digits, read in order, are the same. *)
Inductive format_variant : string -> string -> Prop :=
| fv_empty : format_variant "" ""
| fv_same d s t :
    format_variant s t -> format_variant (String d s) (String d t)
| fv_skip_left c s t :
    Js.is_digit c = false -> format_variant s t ->
    format_variant (String c s) t
| fv_skip_right c s t :
    Js.is_digit c = false -> format_variant s t ->
    format_variant s (String c t).

(** ** How a store may change *)

(** The row [r'] is the row [r], except that it may have become
    consumed. *)
Definition same_row_later (r r' : LoginCode.t) : Prop :=
  LoginCode.id r' = LoginCode.id r /\
  LoginCode.userId r' = LoginCode.userId r /\
  LoginCode.code r' = LoginCode.code r /\
  LoginCode.expiresAt r' = LoginCode.expiresAt r /\
  LoginCode.createdAt r' = LoginCode.createdAt r /\
  (LoginCode.consumed r = true -> LoginCode.consumed r' = true).

(** The store [s'] holds every user of [s] unchanged and every login code
    of [s], in place and at most newly consumed, followed by the rows that
    were added. *)
Definition grows (s s' : Store) : Prop :=
  (exists added, users s' = (users s ++ added)%list) /\
  (exists kept added,
      login_codes s' = (kept ++ added)%list /\
      Forall2 same_row_later (login_codes s) kept).

(** ** Two signup requests in flight

    As for verify: a signup request is a thread that is suspended at each
    [await], here the [findUnique], the [user.create] and the
    [loginCode.create]. *)

Inductive SignupThread : Type :=
| AwaitUserFind (env : Env) (emailHash phoneHash : string)
| AwaitUserCreate (env : Env) (emailHash phoneHash : string)
| AwaitCodeCreate (env : Env) (user : User.t)
| SignupResponded (r : Response).

(** From the start of the handler to the first [await]. *)
Definition signup_start (env : Env) (email phone : JsonValue)
  : SignupThread :=
  if negb (truthy email) || negb (truthy phone) then
    SignupResponded (Fail BadRequest "Email and phone are required")
  else
    match email, phone with
    | JString e, JString p => AwaitUserFind env (hashEmail e) (hashPhone p)
    | _, _ => SignupResponded (Fail InternalError "Internal server error")
    end.

(** The awaited query, and the handler up to its next [await] or to its
    response. *)
Definition signup_resume (t : SignupThread) : Task SignupThread :=
  match t with
  | AwaitUserFind env emailHash phoneHash =>
      existingUser <- Prisma.user_findUnique emailHash ;;
      match existingUser with
      | Some _ =>
          ret (SignupResponded
                 (Fail Conflict "Account with this email already exists"))
      | None => ret (AwaitUserCreate env emailHash phoneHash)
      end
  | AwaitUserCreate env emailHash phoneHash =>
      user <- Prisma.user_create env emailHash phoneHash ;;
      ret (AwaitCodeCreate env user)
  | AwaitCodeCreate env user =>
      let code := generateOTP (random env) in
      let expiresAt := getOTPExpiry (clock env) 5 in
      _ <- Prisma.loginCode_create env (User.id user) code expiresAt ;;
      ret (SignupResponded (Created signup_message (User.id user) code))
  | SignupResponded r => ret (SignupResponded r)
  end.

Definition signup_step (t : SignupThread) (w : World)
  : SignupThread * World :=
  match signup_resume t w with
  | (Ret t', w') => (t', w')
  | (Throw _, w') =>
      (SignupResponded (Fail InternalError "Internal server error"), w')
  end.

Fixpoint run_signups (schedule : list bool) (t1 t2 : SignupThread)
  (w : World) : SignupThread * SignupThread * World :=
  match schedule with
  | [] => (t1, t2, w)
  | true :: rest =>
      let (t1', w') := signup_step t1 w in run_signups rest t1' t2 w'
  | false :: rest =>
      let (t2', w') := signup_step t2 w in run_signups rest t1 t2' w'
  end.

(** The schedules that resume the first thread [n] times and the second
    [m] times. *)
Fixpoint interleavings (n m : nat) {struct n} : list (list bool) :=
  match n with
  | O => [repeat false m]
  | S n' =>
      (fix inner (m : nat) : list (list bool) :=
         match m with
         | O => [repeat true (S n')]
         | S m' =>
             (map (cons true) (interleavings n' (S m')) ++
              map (cons false) (inner m'))%list
         end) m
  end.

(** * Properties *)

(** ** Strings *)

Section StringFacts.

Lemma length_app (s t : string) :
  String.length (s ++ t) = (String.length s + String.length t)%nat.
Proof. induction s as [|c s IH]; simpl; [reflexivity | now rewrite IH]. Qed.

Lemma all_chars_app p (s t : string) :
  all_chars p (s ++ t) = all_chars p s && all_chars p t.
Proof.
  induction s as [|c s IH]; simpl; [reflexivity|].
  now rewrite IH, andb_assoc.
Qed.

Lemma app_assoc_string (s t u : string) : (s ++ t) ++ u = s ++ (t ++ u).
Proof. induction s as [|c s IH]; simpl; [reflexivity | now rewrite IH]. Qed.

Lemma app_empty_r (s : string) : s ++ "" = s.
Proof. induction s as [|c s IH]; simpl; [reflexivity | now rewrite IH]. Qed.

(** Facts about single characters, checked on each of the 256. *)
Ltac each_char c :=
  destruct c as [[] [] [] [] [] [] [] []]; vm_compute; try reflexivity.

Lemma lower_char_idem c : Js.lower_char (Js.lower_char c) = Js.lower_char c.
Proof. each_char c. Qed.

Lemma whitespace_lower_char c :
  Js.is_whitespace (Js.lower_char c) = Js.is_whitespace c.
Proof. each_char c. Qed.

Lemma whitespace_not_upper c :
  Js.is_whitespace c = true -> Js.is_upper c = false.
Proof. each_char c; intros H; discriminate H. Qed.

Lemma toLowerCase_idem s : Js.toLowerCase (Js.toLowerCase s) = Js.toLowerCase s.
Proof.
  induction s as [|c s IH]; simpl; [reflexivity|].
  now rewrite lower_char_idem, IH.
Qed.

Lemma trimStart_lower s :
  Js.trimStart (Js.toLowerCase s) = Js.toLowerCase (Js.trimStart s).
Proof.
  induction s as [|c s IH]; simpl; [reflexivity|].
  rewrite whitespace_lower_char.
  destruct (Js.is_whitespace c); [exact IH | reflexivity].
Qed.

Lemma trimEnd_lower s :
  Js.trimEnd (Js.toLowerCase s) = Js.toLowerCase (Js.trimEnd s).
Proof.
  induction s as [|c s IH]; simpl; [reflexivity|].
  rewrite IH, whitespace_lower_char.
  destruct (Js.trimEnd s); simpl; [|reflexivity].
  destruct (Js.is_whitespace c); reflexivity.
Qed.

Lemma trim_lower s : Js.trim (Js.toLowerCase s) = Js.toLowerCase (Js.trim s).
Proof. unfold Js.trim. now rewrite trimStart_lower, trimEnd_lower. Qed.

Lemma trimStart_blank l s :
  all_chars Js.is_whitespace l = true ->
  Js.trimStart (l ++ s) = Js.trimStart s.
Proof.
  induction l as [|c l IH]; simpl; [reflexivity|].
  intros H. apply andb_prop in H. destruct H as [Hc Hl].
  rewrite Hc. now apply IH.
Qed.

Lemma trimEnd_all_blank r :
  all_chars Js.is_whitespace r = true -> Js.trimEnd r = "".
Proof.
  induction r as [|c r IH]; simpl; [reflexivity|].
  intros H. apply andb_prop in H. destruct H as [Hc Hr].
  now rewrite (IH Hr), Hc.
Qed.

Lemma trimEnd_blank s r :
  all_chars Js.is_whitespace r = true ->
  Js.trimEnd (s ++ r) = Js.trimEnd s.
Proof.
  intros Hr. induction s as [|c s IH]; simpl.
  - now apply trimEnd_all_blank.
  - now rewrite IH.
Qed.

Lemma trimStart_trimEnd s :
  Js.trimStart (Js.trimEnd s) = Js.trimEnd (Js.trimStart s).
Proof.
  induction s as [|c s IH]; simpl; [reflexivity|].
  destruct (Js.is_whitespace c) eqn:Hc.
  - rewrite <- IH. destruct (Js.trimEnd s); simpl; [reflexivity|].
    now rewrite Hc.
  - simpl. destruct (Js.trimEnd s); simpl; now rewrite Hc.
Qed.

Lemma trimStart_idem s : Js.trimStart (Js.trimStart s) = Js.trimStart s.
Proof.
  induction s as [|c s IH]; simpl; [reflexivity|].
  destruct (Js.is_whitespace c) eqn:Hc; [exact IH|].
  simpl. now rewrite Hc.
Qed.

Lemma trimEnd_idem s : Js.trimEnd (Js.trimEnd s) = Js.trimEnd s.
Proof.
  induction s as [|c s IH]; simpl; [reflexivity|].
  destruct (Js.trimEnd s) as [|d t] eqn:Ht.
  - destruct (Js.is_whitespace c) eqn:Hc; simpl; [reflexivity|].
    now rewrite Hc.
  - change (Js.trimEnd (String c (String d t))) with
      (match Js.trimEnd (String d t) with
       | EmptyString => if Js.is_whitespace c then EmptyString
                        else String c EmptyString
       | r' => String c r'
       end).
    now rewrite IH.
Qed.

Lemma trim_idem s : Js.trim (Js.trim s) = Js.trim s.
Proof.
  unfold Js.trim.
  now rewrite trimStart_trimEnd, trimStart_idem, trimEnd_idem.
Qed.

Lemma trim_padded l s r :
  all_chars Js.is_whitespace l = true ->
  all_chars Js.is_whitespace r = true ->
  Js.trim (l ++ s ++ r) = Js.trim s.
Proof.
  intros Hl Hr. unfold Js.trim.
  rewrite (trimStart_blank l _ Hl).
  rewrite <- !trimStart_trimEnd.
  now rewrite (trimEnd_blank s r Hr).
Qed.

Lemma normalizeEmail_idem e :
  normalizeEmail (normalizeEmail e) = normalizeEmail e.
Proof.
  unfold normalizeEmail.
  now rewrite trim_lower, trim_idem, toLowerCase_idem.
Qed.

End StringFacts.

(** ** Digests *)

Section DigestFacts.

Lemma hex_digit_is_hex n : is_hex (Sha256.hex_digit n) = true.
Proof.
  unfold Sha256.hex_digit.
  assert (Hd : 0 <= Z.land n 15 < 16).
  { change 15 with (Z.ones 4). rewrite Z.land_ones by lia.
    apply Z.mod_pos_bound. lia. }
  remember (Z.land n 15) as d eqn:E. clear E.
  assert (H : d = 0 \/ d = 1 \/ d = 2 \/ d = 3 \/ d = 4 \/ d = 5 \/ d = 6 \/
              d = 7 \/ d = 8 \/ d = 9 \/ d = 10 \/ d = 11 \/ d = 12 \/
              d = 13 \/ d = 14 \/ d = 15) by lia.
  clear Hd.
  repeat (destruct H as [-> | H]; [reflexivity|]).
  now subst d.
Qed.

Lemma hex32_length x : String.length (Sha256.hex32 x) = 8%nat.
Proof. reflexivity. Qed.

Lemma hex32_is_hex x : all_chars is_hex (Sha256.hex32 x) = true.
Proof.
  unfold Sha256.hex32.
  cbn [seq rev app map string_of_list_ascii all_chars].
  now rewrite !hex_digit_is_hex.
Qed.

Lemma hex_length st : String.length (Sha256.hex st) = 64%nat.
Proof. unfold Sha256.hex. now rewrite !length_app, !hex32_length. Qed.

Lemma hex_is_hex st : all_chars is_hex (Sha256.hex st) = true.
Proof. unfold Sha256.hex. now rewrite !all_chars_app, !hex32_is_hex. Qed.

Lemma hashString_length s : String.length (hashString s) = 64%nat.
Proof. apply hex_length. Qed.

Lemma hashString_is_hex s : all_chars is_hex (hashString s) = true.
Proof. apply hex_is_hex. Qed.

Lemma hashString_empty : hashString "" = sha256_of_empty.
Proof. vm_compute. reflexivity. Qed.

End DigestFacts.

(** ** Case and whitespace variants of an email *)

Section EmailVariants.

Lemma same_letter_lower a b :
  same_letter a b -> Js.lower_char a = Js.lower_char b.
Proof.
  intros [-> | [[_ ->] | [_ ->]]];
    [reflexivity | now rewrite lower_char_idem..].
Qed.

Lemma case_variant_lower s t :
  case_variant s t -> Js.toLowerCase s = Js.toLowerCase t.
Proof.
  induction 1 as [|a b s t Hab _ IH]; simpl; [reflexivity|].
  now rewrite (same_letter_lower a b Hab), IH.
Qed.

Lemma padded_case_variant_normalize e1 e2 :
  padded_case_variant e1 e2 -> normalizeEmail e1 = normalizeEmail e2.
Proof.
  intros (l1 & c1 & r1 & l2 & c2 & r2 & -> & -> & Hl1 & Hr1 & Hl2 & Hr2 & Hc).
  unfold normalizeEmail.
  rewrite (trim_padded l1 c1 r1 Hl1 Hr1), (trim_padded l2 c2 r2 Hl2 Hr2).
  rewrite <- !trim_lower.
  now rewrite (case_variant_lower c1 c2 Hc).
Qed.

End EmailVariants.

(** C6, as amended.  Two email strings that differ only in letter case and
    in leading or trailing whitespace have the same [hashEmail], a string of
    64 hexadecimal digits; [normalizeEmail] is idempotent and [hashString]
    gives equal digests on equal inputs. *)
Theorem hashEmail_padded_case_variant (e1 e2 : string)
  (H : padded_case_variant e1 e2) :
  hashEmail e1 = hashEmail e2 /\
  String.length (hashEmail e1) = 64%nat /\
  all_chars is_hex (hashEmail e1) = true /\
  (forall e, normalizeEmail (normalizeEmail e) = normalizeEmail e) /\
  (forall a b, a = b -> hashString a = hashString b).
Proof.
  unfold hashEmail. split; [|split; [|split; [|split]]].
  - now rewrite (padded_case_variant_normalize e1 e2 H).
  - apply hashString_length.
  - apply hashString_is_hex.
  - apply normalizeEmail_idem.
  - now intros a b ->.
Qed.

Lemma hashEmail_padded_case_variant_witness :
  padded_case_variant "  A@Test.com " "a@TEST.com" /\
  hashEmail "  A@Test.com " = hashEmail "a@TEST.com".
Proof.
  assert (V : padded_case_variant "  A@Test.com " "a@TEST.com").
  { exists "  ", "A@Test.com", " ", "", "a@TEST.com", "".
    repeat split.
    repeat (apply cv_letter;
            [ first [ left; reflexivity
                    | right; left; split; reflexivity
                    | right; right; split; reflexivity ] | ]).
    apply cv_empty. }
  split; [exact V|].
  exact (proj1 (hashEmail_padded_case_variant _ _ V)).
Defined.

(** C6, as stated, fails: the two strings below differ only in a space, and
    their digests differ, since [trim] leaves inner whitespace in place. *)
Lemma hashEmail_inner_whitespace_counterexample :
  case_whitespace_variant "a b@x.com" "ab@x.com" /\
  hashEmail "a b@x.com" <> hashEmail "ab@x.com".
Proof.
  split.
  - apply cw_letter; [left; reflexivity|].
    apply cw_space_left; [reflexivity|].
    repeat (apply cw_letter; [left; reflexivity|]).
    apply cw_empty.
  - vm_compute. intros E. discriminate E.
Qed.

(** ** One-time codes *)

Section OtpFacts.

Lemma digit_char_is_digit d :
  (d < 10)%N -> Js.is_digit (Js.digit_char d) = true.
Proof.
  intros Hd. unfold Js.is_digit, Js.digit_char, Js.code_unit.
  rewrite N_ascii_embedding by lia.
  apply andb_true_intro; split; apply Z.leb_le; lia.
Qed.

Lemma digit_value_digit_char d :
  (d < 10)%N -> digit_value (Js.digit_char d) = d.
Proof.
  intros Hd. unfold digit_value, Js.digit_char.
  rewrite N_ascii_embedding by lia. lia.
Qed.

Lemma mod10_lt n : (n mod 10 < 10)%N.
Proof. apply N.mod_lt. discriminate. Qed.

Lemma pow10_succ k : (10 ^ N.of_nat (S k) = 10 * 10 ^ N.of_nat k)%N.
Proof. now rewrite Nat2N.inj_succ, N.pow_succ_r'. Qed.

Lemma digits_from_length_le k : forall fuel n acc,
  (n < 10 ^ N.of_nat (S k))%N ->
  (String.length (Js.digits_from fuel n acc)
   <= S k + String.length acc)%nat.
Proof.
  induction k as [|k IH]; intros fuel n acc Hn.
  - change (10 ^ N.of_nat 1)%N with 10%N in Hn.
    destruct fuel; simpl; [lia|].
    rewrite (N.div_small n 10 Hn). simpl. lia.
  - destruct fuel; simpl; [lia|].
    destruct (n / 10 =? 0)%N; simpl; [lia|].
    rewrite pow10_succ in Hn.
    specialize (IH fuel (n / 10)%N
                   (String (Js.digit_char (n mod 10)) acc)).
    simpl in IH.
    assert (Hq : (n / 10 < 10 ^ N.of_nat (S k))%N)
      by (apply N.Div0.div_lt_upper_bound; exact Hn).
    specialize (IH Hq). lia.
Qed.

Lemma digits_from_length_ge fuel : forall n acc,
  (S (String.length acc)
   <= String.length (Js.digits_from fuel n acc))%nat.
Proof.
  induction fuel as [|f IH]; intros n acc; simpl; [lia|].
  destruct (n / 10 =? 0)%N; simpl; [lia|].
  specialize (IH (n / 10)%N (String (Js.digit_char (n mod 10)) acc)).
  simpl in IH. lia.
Qed.

Lemma digits_from_all_digits fuel : forall n acc,
  all_chars Js.is_digit acc = true ->
  all_chars Js.is_digit (Js.digits_from fuel n acc) = true.
Proof.
  induction fuel as [|f IH]; intros n acc Hacc; simpl.
  - now rewrite (digit_char_is_digit _ (mod10_lt n)).
  - destruct (n / 10 =? 0)%N; simpl.
    + now rewrite (digit_char_is_digit _ (mod10_lt n)).
    + apply IH. simpl. now rewrite (digit_char_is_digit _ (mod10_lt n)).
Qed.

Lemma decimal_from_digit n acc :
  decimal_from (n / 10)
    (String (Js.digit_char (n mod 10)) acc) = decimal_from n acc.
Proof.
  change (decimal_from
            (10 * (n / 10) + digit_value (Js.digit_char (n mod 10))) acc
          = decimal_from n acc).
  rewrite (digit_value_digit_char _ (mod10_lt n)).
  f_equal. symmetry. apply N.div_mod'.
Qed.

Lemma digits_from_value fuel : forall n acc,
  (n < 10 ^ N.of_nat (S fuel))%N ->
  decimal_from 0 (Js.digits_from fuel n acc) = decimal_from n acc.
Proof.
  induction fuel as [|f IH]; intros n acc Hn.
  - change (10 ^ N.of_nat 1)%N with 10%N in Hn.
    unfold Js.digits_from. rewrite <- (decimal_from_digit n acc).
    now rewrite (N.div_small n 10 Hn).
  - simpl. destruct (n / 10 =? 0)%N eqn:Hq.
    + apply N.eqb_eq in Hq. rewrite <- (decimal_from_digit n acc).
      now rewrite Hq.
    + rewrite IH; [apply decimal_from_digit|].
      rewrite pow10_succ in Hn.
      apply N.Div0.div_lt_upper_bound; exact Hn.
Qed.

Lemma toString_fuel n : (n < 10 ^ N.of_nat (S (N.to_nat (N.log2 n))))%N.
Proof.
  rewrite Nat2N.inj_succ, N2Nat.id.
  destruct n as [|p]; [reflexivity|].
  apply N.lt_le_trans with (2 ^ N.succ (N.log2 (N.pos p)))%N.
  - apply N.log2_spec. reflexivity.
  - apply N.pow_le_mono_l. discriminate.
Qed.

Lemma toString_value n : decimal_value (Js.toString n) = n.
Proof.
  unfold decimal_value, Js.toString.
  now rewrite (digits_from_value _ n "" (toString_fuel n)).
Qed.

Lemma repeat_char_length c k : String.length (Js.repeat_char c k) = k.
Proof. induction k; simpl; [reflexivity | now rewrite IHk]. Qed.

Lemma decimal_from_zeros k s :
  decimal_from 0 (Js.repeat_char "0" k ++ s) = decimal_from 0 s.
Proof. induction k; simpl; [reflexivity | exact IHk]. Qed.

Lemma all_digits_zeros k : all_chars Js.is_digit (Js.repeat_char "0" k) = true.
Proof. induction k; simpl; [reflexivity | exact IHk]. Qed.

(** Lexicographic order on digit strings of a given length. *)
Lemma digits_between s :
  all_chars Js.is_digit s = true ->
  String.leb (Js.repeat_char "0" (String.length s)) s = true /\
  String.leb s (Js.repeat_char "9" (String.length s)) = true.
Proof.
  unfold String.leb.
  induction s as [|c s IH]; simpl; [now split|].
  intros H. apply andb_prop in H. destruct H as [Hc Hs].
  specialize (IH Hs). destruct IH as [IH0 IH9].
  unfold Js.is_digit, Js.code_unit in Hc.
  apply andb_prop in Hc. destruct Hc as [Hlo Hhi].
  apply Z.leb_le in Hlo. apply Z.leb_le in Hhi.
  unfold Ascii.compare.
  change (N_of_ascii "0") with 48%N. change (N_of_ascii "9") with 57%N.
  split.
  - destruct (N.compare_spec 48 (N_of_ascii c)) as [E|L|G];
      [exact IH0 | reflexivity | lia].
  - destruct (N.compare_spec (N_of_ascii c) 57) as [E|L|G];
      [exact IH9 | reflexivity | lia].
Qed.

End OtpFacts.

(** C7.  For every value [r] that [crypto.randomInt(0, 1000000)] can
    return, [generateOTP] is a string of exactly 6 decimal digits, the
    decimal notation of [r] padded with zeros on the left, between "000000"
    and "999999". *)
Theorem generateOTP_six_digits (r : N) (Hr : (r < 1000000)%N) :
  String.length (generateOTP r) = 6%nat /\
  all_chars Js.is_digit (generateOTP r) = true /\
  decimal_value (generateOTP r) = r /\
  (exists k, generateOTP r = Js.repeat_char "0" k ++ Js.toString r) /\
  String.leb "000000" (generateOTP r) = true /\
  String.leb (generateOTP r) "999999" = true.
Proof.
  assert (Hlen : String.length (generateOTP r) = 6%nat).
  { unfold generateOTP, Js.padStart.
    rewrite length_app, repeat_char_length.
    assert (String.length (Js.toString r) <= 6)%nat; [|lia].
    unfold Js.toString.
    pose proof (digits_from_length_le 5 (N.to_nat (N.log2 r)) r "" Hr) as L.
    simpl in L. lia. }
  assert (Hdig : all_chars Js.is_digit (generateOTP r) = true).
  { unfold generateOTP, Js.padStart.
    rewrite all_chars_app, all_digits_zeros. simpl.
    now apply digits_from_all_digits. }
  split; [exact Hlen|]. split; [exact Hdig|]. split; [|split].
  - unfold generateOTP, Js.padStart, decimal_value.
    rewrite decimal_from_zeros. apply toString_value.
  - now eexists.
  - pose proof (digits_between _ Hdig) as B. rewrite Hlen in B. exact B.
Qed.

Lemma generateOTP_six_digits_witness :
  (7 < 1000000)%N /\
  generateOTP 7 = "000007" /\ String.length (generateOTP 7) = 6%nat.
Proof.
  split; [reflexivity|]. split; [reflexivity|].
  exact (proj1 (generateOTP_six_digits 7 eq_refl)).
Defined.

(** ** Running tasks *)

Section TaskFacts.

Lemma truthy_string s : s <> "" -> truthy (JString s) = true.
Proof. intros H. simpl. apply String.eqb_neq in H. now rewrite H. Qed.

Lemma existsb_false_find {A} (f : A -> bool) l :
  existsb f l = false -> find f l = None.
Proof.
  induction l as [|x l IH]; simpl; [reflexivity|].
  destruct (f x); simpl; [discriminate | exact IH].
Qed.

Lemma has_emailHash_iff s h :
  Prisma.has_emailHash s h = true <->
  exists u, In u (users s) /\ User.emailHash u = h.
Proof.
  unfold Prisma.has_emailHash. rewrite existsb_exists.
  split; intros (u & Hin & E); exists u; split; trivial;
    now apply String.eqb_eq.
Qed.

Lemma has_user_id_iff s i :
  Prisma.has_user_id s i = true <->
  exists u, In u (users s) /\ User.id u = i.
Proof.
  unfold Prisma.has_user_id. rewrite existsb_exists.
  split; intros (u & Hin & E); exists u; split; trivial;
    now apply String.eqb_eq.
Qed.

Lemma has_code_id_iff s i :
  Prisma.has_code_id s i = true <->
  exists c, In c (login_codes s) /\ LoginCode.id c = i.
Proof.
  unfold Prisma.has_code_id. rewrite existsb_exists.
  split; intros (u & Hin & E); exists u; split; trivial;
    now apply String.eqb_eq.
Qed.

Lemma not_true_false b : ~ b = true -> b = false.
Proof. now destruct b; [intros H; elim H|]. Qed.

Lemma no_emailHash s h :
  (forall u, In u (users s) -> User.emailHash u <> h) ->
  Prisma.has_emailHash s h = false.
Proof.
  intros H. apply not_true_false. rewrite has_emailHash_iff.
  intros (u & Hin & E). exact (H u Hin E).
Qed.

Lemma no_user_id s i :
  (forall u, In u (users s) -> User.id u <> i) ->
  Prisma.has_user_id s i = false.
Proof.
  intros H. apply not_true_false. rewrite has_user_id_iff.
  intros (u & Hin & E). exact (H u Hin E).
Qed.

Lemma no_code_id s i :
  (forall c, In c (login_codes s) -> LoginCode.id c <> i) ->
  Prisma.has_code_id s i = false.
Proof.
  intros H. apply not_true_false. rewrite has_code_id_iff.
  intros (u & Hin & E). exact (H u Hin E).
Qed.

End TaskFacts.

(** ** Validation *)

Section Validation.

Variables (env : Env) (s : Store).

Lemma signup_falsy email phone :
  truthy email = false \/ truthy phone = false ->
  signup env email phone s =
  (Fail BadRequest "Email and phone are required", mkWorld s []).
Proof.
  intros H. unfold signup, try_catch, signup_body.
  destruct H as [H | H]; rewrite H; simpl;
    [reflexivity | now rewrite orb_true_r].
Qed.

Lemma login_falsy email :
  truthy email = false ->
  login env email s = (Fail BadRequest "Email is required", mkWorld s []).
Proof. intros H. unfold login, try_catch, login_body. now rewrite H. Qed.

Lemma verify_falsy userId code :
  truthy userId = false \/ truthy code = false ->
  verify env userId code s =
  (Fail BadRequest "User ID and code are required", mkWorld s []).
Proof.
  intros H. unfold verify, try_catch, verify_body.
  destruct H as [H | H]; rewrite H; simpl;
    [reflexivity | now rewrite orb_true_r].
Qed.

End Validation.

(** C9, as amended.  A request to signup, login or verify in which a
    required field is absent or falsy (null, false, 0 or the empty string)
    is answered with BadRequest; no query has been sent to the storage
    layer and the store is unchanged. *)
Theorem falsy_field_is_bad_request (env : Env) (s : Store) :
  (forall email phone,
      truthy email = false \/ truthy phone = false ->
      signup env email phone s =
      (Fail BadRequest "Email and phone are required", mkWorld s [])) /\
  (forall email,
      truthy email = false ->
      login env email s =
      (Fail BadRequest "Email is required", mkWorld s [])) /\
  (forall userId code,
      truthy userId = false \/ truthy code = false ->
      verify env userId code s =
      (Fail BadRequest "User ID and code are required", mkWorld s [])).
Proof.
  split; [|split].
  - apply signup_falsy.
  - apply login_falsy.
  - apply verify_falsy.
Qed.

Lemma falsy_field_is_bad_request_witness :
  signup (mkEnv 1000 7 1000 "u1" "c1") JUndefined (JString "555") empty_store
  = (Fail BadRequest "Email and phone are required",
     mkWorld empty_store []) /\
  login (mkEnv 1000 7 1000 "u1" "c1") (JString "") empty_store
  = (Fail BadRequest "Email is required", mkWorld empty_store []) /\
  verify (mkEnv 1000 7 1000 "u1" "c1") (JString "u1") JNull empty_store
  = (Fail BadRequest "User ID and code are required",
     mkWorld empty_store []).
Proof.
  destruct (falsy_field_is_bad_request
              (mkEnv 1000 7 1000 "u1" "c1") empty_store) as (S & L & V).
  split; [|split].
  - apply S. left. reflexivity.
  - apply L. reflexivity.
  - apply V. right. reflexivity.
Defined.

(** C9, as stated, fails on a required field that is present but
    malformed: a number in place of the email string passes the validation
    of signup, [hashEmail] then throws and the answer is InternalError; a
    string that is no email address, with a phone without digits, is
    accepted and written to the store. *)
Lemma malformed_field_counterexample :
  malformed (JNumber 5) /\
  signup (mkEnv 1000 7 1000 "u1" "c1") (JNumber 5) (JString "555")
         empty_store
  = (Fail InternalError "Internal server error", mkWorld empty_store []) /\
  exists w,
    signup (mkEnv 1000 7 1000 "u1" "c1") (JString "not an email")
           (JString "abc") empty_store
    = (Created
         "Account created. Please verify with the code sent to your phone."
         "u1" "000007", w) /\
    List.length (users (db w)) = 1%nat /\ List.length (sent w) = 3%nat.
Proof.
  split; [exact I|]. split; [reflexivity|].
  eexists. split; [vm_compute; reflexivity|]. split; reflexivity.
Qed.

(** ** Signup and login, step by step *)

Section SignupLogin.

Variables (env : Env) (s : Store).

Lemma has_user_id_new (l : list User.t) (cs : list LoginCode.t) u :
  Prisma.has_user_id (mkStore (l ++ [u]) cs) (User.id u) = true.
Proof.
  unfold Prisma.has_user_id. simpl. rewrite existsb_app. simpl.
  now rewrite String.eqb_refl, orb_true_r.
Qed.

Lemma signup_run_conflict email phone :
  email <> "" -> phone <> "" ->
  Prisma.has_emailHash s (hashEmail email) = true ->
  signup env (JString email) (JString phone) s =
  (Fail Conflict "Account with this email already exists",
   mkWorld s [QUserFindUnique (hashEmail email)]).
Proof.
  intros He Hp Hex.
  unfold signup, try_catch, signup_body.
  rewrite (truthy_string _ He), (truthy_string _ Hp).
  cbv beta iota delta [call_on_string negb orb].
  generalize dependent (hashEmail email). intros eh Hex.
  generalize (hashPhone phone). intros ph.
  unfold Prisma.has_emailHash in Hex.
  cbn -[String.eqb].
  destruct (find (fun u => (User.emailHash u =? eh)%string) (users s))
    eqn:F; [reflexivity|].
  apply existsb_exists in Hex. destruct Hex as (u & Hin & E).
  now rewrite (find_none _ _ F u Hin) in E.
Qed.

Lemma signup_run_created email phone :
  email <> "" -> phone <> "" ->
  Prisma.has_emailHash s (hashEmail email) = false ->
  Prisma.has_user_id s (new_user_id env) = false ->
  Prisma.has_code_id s (new_code_id env) = false ->
  signup env (JString email) (JString phone) s =
  (Created signup_message (new_user_id env) (generateOTP (random env)),
   mkWorld
     (mkStore
        (users s ++ [User.mk (new_user_id env) (hashEmail email)
                             (hashPhone phone) (db_clock env)])
        (login_codes s ++
           [LoginCode.mk (new_code_id env) (new_user_id env)
                         (generateOTP (random env))
                         (clock env + 5 * 60000) false (db_clock env)]))
     [QUserFindUnique (hashEmail email);
      QUserCreate (hashEmail email) (hashPhone phone);
      QLoginCodeCreate (new_user_id env) (generateOTP (random env))
                       (clock env + 5 * 60000)]).
Proof.
  intros He Hp Hex Hu Hc.
  unfold signup, try_catch, signup_body.
  rewrite (truthy_string _ He), (truthy_string _ Hp).
  cbv beta iota delta [call_on_string negb orb].
  generalize dependent (hashEmail email). intros eh Hex.
  generalize (hashPhone phone). intros ph.
  generalize (generateOTP (random env)). intros otp.
  unfold getOTPExpiry.
  unfold Prisma.user_findUnique, Prisma.user_create,
    Prisma.loginCode_create, bind, send, get_store, put_store, ret, throw,
    call_on_string.
  cbn -[String.eqb Prisma.has_user_id Prisma.has_emailHash
        Prisma.has_code_id].
  rewrite (existsb_false_find _ _ Hex).
  cbn -[String.eqb Prisma.has_user_id Prisma.has_emailHash
        Prisma.has_code_id].
  rewrite Hu, Hex.
  cbn -[String.eqb Prisma.has_user_id Prisma.has_emailHash
        Prisma.has_code_id].
  change (Prisma.has_code_id (mkStore _ (login_codes s)) (new_code_id env))
    with (Prisma.has_code_id s (new_code_id env)).
  rewrite Hc.
  pose proof (has_user_id_new (users s) (login_codes s)
                (User.mk (new_user_id env) eh ph (db_clock env))) as Hn.
  cbn [User.id] in Hn. rewrite Hn. reflexivity.
Qed.

Lemma login_run_not_found email :
  email <> "" ->
  Prisma.has_emailHash s (hashEmail email) = false ->
  login env (JString email) s =
  (Fail NotFound "No account found with this email",
   mkWorld s [QUserFindUnique (hashEmail email)]).
Proof.
  intros He Hex.
  unfold login, try_catch, login_body.
  rewrite (truthy_string _ He).
  cbv beta iota delta [call_on_string negb].
  generalize dependent (hashEmail email). intros eh Hex.
  unfold Prisma.user_findUnique, bind, send, get_store, ret,
    call_on_string.
  cbn -[String.eqb].
  now rewrite (existsb_false_find _ _ Hex).
Qed.

Lemma login_run_found email u :
  email <> "" ->
  find (fun u => (User.emailHash u =? hashEmail email)%string) (users s)
  = Some u ->
  Prisma.has_code_id s (new_code_id env) = false ->
  login env (JString email) s =
  (CodeSent "Verification code sent to your phone." (User.id u)
            (generateOTP (random env)),
   mkWorld
     (mkStore (users s)
        (login_codes s ++
           [LoginCode.mk (new_code_id env) (User.id u)
                         (generateOTP (random env))
                         (clock env + 5 * 60000) false (db_clock env)]))
     [QUserFindUnique (hashEmail email);
      QLoginCodeCreate (User.id u) (generateOTP (random env))
                       (clock env + 5 * 60000)]).
Proof.
  intros He F Hc.
  unfold login, try_catch, login_body.
  rewrite (truthy_string _ He).
  cbv beta iota delta [call_on_string negb].
  generalize dependent (hashEmail email). intros eh F.
  generalize (generateOTP (random env)). intros otp.
  unfold getOTPExpiry.
  unfold Prisma.user_findUnique, Prisma.loginCode_create, bind, send,
    get_store, put_store, ret, throw, call_on_string.
  cbn -[String.eqb Prisma.has_user_id Prisma.has_code_id].
  rewrite F.
  cbn -[String.eqb Prisma.has_user_id Prisma.has_code_id].
  rewrite Hc.
  assert (Hid : Prisma.has_user_id s (User.id u) = true).
  { apply has_user_id_iff. exists u. split; [|reflexivity].
    exact (proj1 (find_some _ _ F)). }
  rewrite Hid. reflexivity.
Qed.

(** Under the unique index, [findUnique] returns the user that has the
    hash. *)
Lemma find_unique_emailHash (l : list User.t) u :
  NoDup (map User.emailHash l) -> In u l ->
  find (fun v => (User.emailHash v =? User.emailHash u)%string) l = Some u.
Proof.
  induction l as [|x l IH]; intros Hnd Hin; [destruct Hin|].
  simpl in *. inversion Hnd as [|? ? Hx Hl]; subst.
  destruct Hin as [-> | Hin].
  - now rewrite String.eqb_refl.
  - destruct (String.eqb_spec (User.emailHash x) (User.emailHash u)) as [E|_].
    + elim Hx. rewrite E. now apply in_map.
    + now apply IH.
Qed.

End SignupLogin.

(** C4.  Signup with non-empty email and phone: when the hash of the
    normalized email is the [emailHash] of a stored user the answer is
    Conflict and the store is unchanged (one read was sent); when no stored
    user has that hash, and the generated identifiers are new, exactly one
    user and one unconsumed login code expiring five minutes after the
    clock reading are appended, and the answer carries the new user's
    identifier and the code. *)
Theorem signup_conflict_or_created (env : Env) (s : Store)
  (email phone : string) (He : email <> "") (Hp : phone <> "") :
  ((exists u, In u (users s) /\ User.emailHash u = hashEmail email) ->
   signup env (JString email) (JString phone) s =
   (Fail Conflict "Account with this email already exists",
    mkWorld s [QUserFindUnique (hashString (normalizeEmail email))])) /\
  ((forall u, In u (users s) -> User.emailHash u <> hashEmail email) ->
   (forall u, In u (users s) -> User.id u <> new_user_id env) ->
   (forall c, In c (login_codes s) -> LoginCode.id c <> new_code_id env) ->
   signup env (JString email) (JString phone) s =
   (Created signup_message (new_user_id env) (generateOTP (random env)),
    mkWorld
      (mkStore
         (users s ++ [User.mk (new_user_id env) (hashEmail email)
                              (hashPhone phone) (db_clock env)])
         (login_codes s ++
            [LoginCode.mk (new_code_id env) (new_user_id env)
                          (generateOTP (random env))
                          (clock env + 5 * 60000) false (db_clock env)]))
      [QUserFindUnique (hashEmail email);
       QUserCreate (hashEmail email) (hashPhone phone);
       QLoginCodeCreate (new_user_id env) (generateOTP (random env))
                        (clock env + 5 * 60000)])).
Proof.
  split.
  - intros Hex. apply signup_run_conflict; trivial.
    now apply has_emailHash_iff.
  - intros Hno Hu Hc. apply signup_run_created; trivial.
    + now apply no_emailHash.
    + now apply no_user_id.
    + now apply no_code_id.
Qed.

Lemma signup_conflict_or_created_witness :
  signup (mkEnv 1000 123456 1001 "u1" "c1")
         (JString "A@Test.com") (JString "(555) 123-4567") empty_store
  = (Created signup_message "u1" "123456",
     mkWorld
       (mkStore
          [User.mk "u1" (hashString "a@test.com") (hashString "5551234567")
                   1001]
          [LoginCode.mk "c1" "u1" "123456" 301000 false 1001])
       [QUserFindUnique (hashString "a@test.com");
        QUserCreate (hashString "a@test.com") (hashString "5551234567");
        QLoginCodeCreate "u1" "123456" 301000]) /\
  signup (mkEnv 2000 5 2001 "u2" "c2")
         (JString " a@test.COM ") (JString "1")
         (mkStore [User.mk "u1" (hashString "a@test.com")
                           (hashString "5551234567") 1001] [])
  = (Fail Conflict "Account with this email already exists",
     mkWorld
       (mkStore [User.mk "u1" (hashString "a@test.com")
                         (hashString "5551234567") 1001] [])
       [QUserFindUnique (hashString "a@test.com")]).
Proof.
  split.
  - refine (proj2 (signup_conflict_or_created
                     (mkEnv 1000 123456 1001 "u1" "c1") empty_store
                     "A@Test.com" "(555) 123-4567" _ _) _ _ _);
      [discriminate | discriminate | | | ]; intros x Hx; destruct Hx.
  - refine (proj1 (signup_conflict_or_created
                     (mkEnv 2000 5 2001 "u2" "c2")
                     (mkStore [User.mk "u1" (hashString "a@test.com")
                                       (hashString "5551234567") 1001] [])
                     " a@test.COM " "1" _ _) _);
      [discriminate | discriminate | ].
    eexists. split; [left; reflexivity|]. vm_compute. reflexivity.
Defined.

(** C8.  Login with a non-empty email: when no stored user has the hash of
    the normalized email the answer is NotFound and the store is unchanged;
    when a user has it (the one user, under the unique index) and the
    generated identifier is new, exactly one unconsumed login code for that
    user, expiring five minutes after the clock reading, is appended, and
    every user and every login code stored before is still there as it
    was. *)
Theorem login_not_found_or_code_sent (env : Env) (s : Store)
  (email : string) (He : email <> "") :
  ((forall u, In u (users s) -> User.emailHash u <> hashEmail email) ->
   login env (JString email) s =
   (Fail NotFound "No account found with this email",
    mkWorld s [QUserFindUnique (hashEmail email)])) /\
  (forall u,
      In u (users s) -> User.emailHash u = hashEmail email ->
      NoDup (map User.emailHash (users s)) ->
      (forall c, In c (login_codes s) -> LoginCode.id c <> new_code_id env) ->
      let created :=
        LoginCode.mk (new_code_id env) (User.id u)
                     (generateOTP (random env))
                     (clock env + 5 * 60000) false (db_clock env) in
      login env (JString email) s =
      (CodeSent "Verification code sent to your phone." (User.id u)
                (generateOTP (random env)),
       mkWorld
         (mkStore (users s) (login_codes s ++ [created]))
         [QUserFindUnique (hashEmail email);
          QLoginCodeCreate (User.id u) (generateOTP (random env))
                           (clock env + 5 * 60000)]) /\
      (forall c, In c (login_codes s) ->
                 In c (login_codes (db (snd (login env (JString email) s)))))).
Proof.
  split.
  - intros Hno. apply login_run_not_found; trivial. now apply no_emailHash.
  - intros u Hin Hh Hnd Hc created.
    assert (R : login env (JString email) s =
                (CodeSent "Verification code sent to your phone." (User.id u)
                          (generateOTP (random env)),
                 mkWorld
                   (mkStore (users s) (login_codes s ++ [created]))
                   [QUserFindUnique (hashEmail email);
                    QLoginCodeCreate (User.id u) (generateOTP (random env))
                                     (clock env + 5 * 60000)])).
    { apply login_run_found; trivial.
      - rewrite <- Hh. now apply find_unique_emailHash.
      - now apply no_code_id. }
    split; [exact R|].
    intros c Hc'. rewrite R. simpl. apply in_or_app. now left.
Qed.

Lemma login_not_found_or_code_sent_witness :
  login (mkEnv 2000 7 2001 "u2" "c2") (JString "a@test.com ")
        (mkStore
           [User.mk "u1" (hashString "a@test.com") (hashString "5551234567")
                    1001]
           [LoginCode.mk "c1" "u1" "123456" 301000 false 1001])
  = (CodeSent "Verification code sent to your phone." "u1" "000007",
     mkWorld
       (mkStore
          [User.mk "u1" (hashString "a@test.com") (hashString "5551234567")
                   1001]
          [LoginCode.mk "c1" "u1" "123456" 301000 false 1001;
           LoginCode.mk "c2" "u1" "000007" 302000 false 2001])
       [QUserFindUnique (hashString "a@test.com");
        QLoginCodeCreate "u1" "000007" 302000]) /\
  login (mkEnv 2000 7 2001 "u2" "c2") (JString "b@test.com") empty_store
  = (Fail NotFound "No account found with this email",
     mkWorld empty_store [QUserFindUnique (hashString "b@test.com")]).
Proof.
  split.
  - refine (proj1 (proj2 (login_not_found_or_code_sent
                     (mkEnv 2000 7 2001 "u2" "c2")
                     (mkStore
                        [User.mk "u1" (hashString "a@test.com")
                                 (hashString "5551234567") 1001]
                        [LoginCode.mk "c1" "u1" "123456" 301000 false 1001])
                     "a@test.com " _)
                   (User.mk "u1" (hashString "a@test.com")
                            (hashString "5551234567") 1001) _ _ _ _));
      [discriminate | left; reflexivity | vm_compute; reflexivity | | ].
    + repeat constructor. intros [].
    + intros c [<- | []]. discriminate.
  - refine (proj1 (login_not_found_or_code_sent
                     (mkEnv 2000 7 2001 "u2" "c2") empty_store
                     "b@test.com" _) _); [discriminate|].
    intros x Hx. destruct Hx.
Defined.

(** ** Verify, step by step *)

Local Open Scope list_scope.

Section VerifyFacts.

Lemma matches_iff uid c row :
  Prisma.matches uid c row = true <-> is_match uid c row.
Proof.
  unfold Prisma.matches, is_match.
  rewrite !andb_true_iff, !String.eqb_eq, negb_true_iff. tauto.
Qed.

Lemma latest_spec rows x :
  Prisma.latest rows = Some x ->
  In x rows /\
  forall y, In y rows -> LoginCode.createdAt y <= LoginCode.createdAt x.
Proof.
  revert x. induction rows as [|r rest IH]; intros x H; [discriminate|].
  simpl in H. destruct (Prisma.latest rest) as [r'|] eqn:L.
  - destruct (IH r' eq_refl) as [Hin Hmax].
    destruct (Z.ltb_spec (LoginCode.createdAt r) (LoginCode.createdAt r'));
      inversion H; subst x; clear H.
    + split; [now right|]. intros y [<- | Hy]; [lia | now apply Hmax].
    + split; [now left|]. intros y [<- | Hy]; [lia|].
      specialize (Hmax y Hy). lia.
  - inversion H; subst x; clear H.
    destruct rest as [|r2 rest]; [|simpl in L;
      destruct (Prisma.latest rest);
      [destruct (_ <? _)|]; discriminate].
    split; [now left|]. intros y [<- | []]. lia.
Qed.

Lemma latest_none rows : Prisma.latest rows = None -> rows = [].
Proof.
  destruct rows as [|r rest]; [reflexivity|]. simpl.
  destruct (Prisma.latest rest); [destruct (_ <? _)|]; discriminate.
Qed.

Lemma findFirst_most_recent s uid c x :
  Prisma.latest (filter (Prisma.matches uid c) (login_codes s)) = Some x ->
  most_recent_match s uid c x.
Proof.
  intros H. destruct (latest_spec _ _ H) as [Hin Hmax].
  apply filter_In in Hin. destruct Hin as [Hin Hm].
  split; [exact Hin|]. split; [now apply matches_iff|].
  intros r Hr Hrm. apply Hmax. apply filter_In.
  split; [exact Hr | now apply matches_iff].
Qed.

Lemma findFirst_some s uid c :
  (exists r, In r (login_codes s) /\ is_match uid c r) ->
  exists x,
    Prisma.latest (filter (Prisma.matches uid c) (login_codes s)) = Some x.
Proof.
  intros (r & Hin & Hm).
  destruct (Prisma.latest (filter (Prisma.matches uid c) (login_codes s)))
    as [x|] eqn:L; [now exists x|].
  apply latest_none in L.
  assert (Hr : In r (filter (Prisma.matches uid c) (login_codes s)))
    by (apply filter_In; split; [exact Hin | now apply matches_iff]).
  rewrite L in Hr. destruct Hr.
Qed.

Variables (env : Env) (s : Store) (uid c : string).
Hypotheses (Hu : uid <> "") (Hc : c <> "").

Ltac start_verify :=
  unfold verify, try_catch, verify_body;
  rewrite (truthy_string _ Hu), (truthy_string _ Hc);
  unfold string_argument, Prisma.loginCode_findFirst,
    Prisma.loginCode_update, bind, send, get_store, put_store, ret, throw;
  cbn -[String.eqb Prisma.latest Prisma.matches Prisma.has_code_id filter
        Z.ltb].

Lemma verify_run_none :
  Prisma.latest (filter (Prisma.matches uid c) (login_codes s)) = None ->
  verify env (JString uid) (JString c) s =
  (Fail Unauthorized "Invalid or expired code",
   mkWorld s [QLoginCodeFindFirst uid c]).
Proof. intros L. start_verify. now rewrite L. Qed.

Lemma verify_run_expired lc :
  Prisma.latest (filter (Prisma.matches uid c) (login_codes s)) = Some lc ->
  LoginCode.expiresAt lc <= clock env ->
  verify env (JString uid) (JString c) s =
  (Fail Unauthorized "Code has expired. Please request a new one.",
   mkWorld s [QLoginCodeFindFirst uid c]).
Proof.
  intros L E. start_verify. rewrite L. unfold isOTPValid.
  destruct (Z.ltb_spec (clock env) (LoginCode.expiresAt lc)); [lia|].
  reflexivity.
Qed.

Lemma verify_run_ok lc :
  Prisma.latest (filter (Prisma.matches uid c) (login_codes s)) = Some lc ->
  clock env < LoginCode.expiresAt lc ->
  verify env (JString uid) (JString c) s =
  (Verified verify_message uid,
   mkWorld
     (mkStore (users s)
              (map (Prisma.set_consumed (LoginCode.id lc)) (login_codes s)))
     [QLoginCodeFindFirst uid c; QLoginCodeUpdate (LoginCode.id lc)]).
Proof.
  intros L E. start_verify. rewrite L. unfold isOTPValid.
  destruct (Z.ltb_spec (clock env) (LoginCode.expiresAt lc)); [|lia].
  cbn -[String.eqb Prisma.latest Prisma.matches Prisma.has_code_id filter
        Z.ltb].
  assert (Hid : Prisma.has_code_id s (LoginCode.id lc) = true).
  { apply has_code_id_iff. exists lc. split; [|reflexivity].
    destruct (findFirst_most_recent _ _ _ _ L) as [Hin _]. exact Hin. }
  now rewrite Hid.
Qed.

End VerifyFacts.

(** ** The update touches one row *)

Section UpdateOneRow.

Lemma set_consumed_other i (l : list LoginCode.t) :
  ~ In i (map LoginCode.id l) -> map (Prisma.set_consumed i) l = l.
Proof.
  induction l as [|r l IH]; intros H; [reflexivity|].
  simpl in *. unfold Prisma.set_consumed at 1.
  destruct (String.eqb_spec (LoginCode.id r) i) as [E|_].
  - elim H. now left.
  - f_equal. apply IH. intros Hin. apply H. now right.
Qed.

Lemma set_consumed_split lc (l1 l2 : list LoginCode.t) :
  NoDup (map LoginCode.id (l1 ++ lc :: l2)) ->
  map (Prisma.set_consumed (LoginCode.id lc)) (l1 ++ lc :: l2)
  = l1 ++ LoginCode.consume lc :: l2.
Proof.
  intros Hnd. rewrite map_app in Hnd. simpl in Hnd.
  pose proof (NoDup_remove_2 _ _ _ Hnd) as Hnot.
  rewrite map_app. simpl.
  rewrite set_consumed_other
    by (intros Hin; apply Hnot; apply in_or_app; now left).
  rewrite (set_consumed_other _ l2)
    by (intros Hin; apply Hnot; apply in_or_app; now right).
  unfold Prisma.set_consumed. now rewrite String.eqb_refl.
Qed.

(** In [l1 ++ lc :: l2] without repeated identifiers, a row of [l1] or
    [l2] is not [lc]. *)
Lemma split_other lc (l1 l2 : list LoginCode.t) r :
  NoDup (map LoginCode.id (l1 ++ lc :: l2)) ->
  In r (l1 ++ l2) -> r <> lc /\ In r (l1 ++ lc :: l2).
Proof.
  intros Hnd Hin. rewrite map_app in Hnd. simpl in Hnd.
  pose proof (NoDup_remove_2 _ _ _ Hnd) as Hnot.
  split.
  - intros ->. apply Hnot. rewrite <- map_app. now apply in_map.
  - apply in_app_or in Hin. apply in_or_app.
    destruct Hin; [now left | right; now right].
Qed.

Lemma matches_after_consume uid c lc (l1 l2 : list LoginCode.t) :
  filter (Prisma.matches uid c) (l1 ++ LoginCode.consume lc :: l2)
  = filter (Prisma.matches uid c) (l1 ++ l2).
Proof.
  rewrite !filter_app. simpl.
  unfold Prisma.matches at 2. simpl. now rewrite andb_false_r.
Qed.

End UpdateOneRow.

(** C2.  Verify with non-empty userId and code, in a state where some
    stored login code matches (userId, code, consumed = false) and the most
    recently created such code has an expiry that is not strictly after the
    clock reading: the answer is Unauthorized, one read was sent and the
    store, with that code's consumed flag, is as it was. *)
Theorem verify_expired_leaves_store (env : Env) (s : Store)
  (uid c : string) (Hu : uid <> "") (Hc : c <> "")
  (Hex : exists r, In r (login_codes s) /\ is_match uid c r)
  (Hexp : forall r, most_recent_match s uid c r ->
                    LoginCode.expiresAt r <= clock env) :
  verify env (JString uid) (JString c) s =
  (Fail Unauthorized "Code has expired. Please request a new one.",
   mkWorld s [QLoginCodeFindFirst uid c]) /\
  db (snd (verify env (JString uid) (JString c) s)) = s /\
  (forall r, most_recent_match s uid c r ->
     In r (login_codes (db (snd (verify env (JString uid) (JString c) s)))) /\
     LoginCode.consumed r = false).
Proof.
  destruct (findFirst_some s uid c Hex) as [x L].
  pose proof (findFirst_most_recent _ _ _ _ L) as Hx.
  pose proof (verify_run_expired env s uid c Hu Hc x L (Hexp x Hx)) as R.
  rewrite R. simpl. split; [reflexivity|]. split; [reflexivity|].
  intros r (Hin & (_ & _ & Hcons) & _). now split.
Qed.

Lemma verify_expired_leaves_store_witness :
  verify (mkEnv 301000 0 301000 "u9" "c9") (JString "u1") (JString "123456")
         (mkStore [User.mk "u1" "" "" 1001]
                  [LoginCode.mk "c1" "u1" "123456" 301000 false 1001])
  = (Fail Unauthorized "Code has expired. Please request a new one.",
     mkWorld (mkStore [User.mk "u1" "" "" 1001]
                      [LoginCode.mk "c1" "u1" "123456" 301000 false 1001])
             [QLoginCodeFindFirst "u1" "123456"]).
Proof.
  refine (proj1 (verify_expired_leaves_store
                   (mkEnv 301000 0 301000 "u9" "c9")
                   (mkStore [User.mk "u1" "" "" 1001]
                      [LoginCode.mk "c1" "u1" "123456" 301000 false 1001])
                   "u1" "123456" _ _ _ _));
    [discriminate | discriminate | | ].
  - eexists. split; [left; reflexivity|]. repeat split.
  - intros r ([<- | []] & _). simpl. lia.
Defined.

(** C1, as amended.  Verify with non-empty userId and code, in a state
    whose login codes have distinct identifiers, where some stored login
    code matches (userId, code, consumed = false) and the most recently
    created such code is unexpired: verify succeeds and sets consumed on
    exactly that code, every other row staying as it was.  A second verify
    with the same (userId, code) on the resulting state, at any time at
    which no other matching unconsumed code is unexpired, fails with
    Unauthorized and changes nothing. *)
Theorem verify_consumes_most_recent (env : Env) (s : Store)
  (uid c : string) (Hu : uid <> "") (Hc : c <> "")
  (Hpk : NoDup (map LoginCode.id (login_codes s)))
  (Hex : exists r, In r (login_codes s) /\ is_match uid c r)
  (Hvalid : forall r, most_recent_match s uid c r ->
                      clock env < LoginCode.expiresAt r) :
  exists lc l1 l2,
    most_recent_match s uid c lc /\
    login_codes s = l1 ++ lc :: l2 /\
    let s' := mkStore (users s) (l1 ++ LoginCode.consume lc :: l2) in
    verify env (JString uid) (JString c) s =
    (Verified verify_message uid,
     mkWorld s' [QLoginCodeFindFirst uid c;
                 QLoginCodeUpdate (LoginCode.id lc)]) /\
    forall env',
      (forall r, In r (login_codes s) -> is_match uid c r -> r <> lc ->
                 LoginCode.expiresAt r <= clock env') ->
      exists error,
        verify env' (JString uid) (JString c) s' =
        (Fail Unauthorized error, mkWorld s' [QLoginCodeFindFirst uid c]).
Proof.
  destruct (findFirst_some s uid c Hex) as [x L].
  pose proof (findFirst_most_recent _ _ _ _ L) as Hx.
  destruct (in_split _ _ (proj1 Hx)) as (l1 & l2 & E).
  exists x, l1, l2. split; [exact Hx|]. split; [exact E|].
  intros s'. split.
  - rewrite (verify_run_ok env s uid c Hu Hc x L (Hvalid x Hx)).
    rewrite E in Hpk. rewrite E at 1.
    now rewrite (set_consumed_split x l1 l2 Hpk).
  - intros env' Hother.
    destruct (Prisma.latest
                (filter (Prisma.matches uid c) (login_codes s')))
      as [r|] eqn:L'.
    + exists "Code has expired. Please request a new one.".
      apply (verify_run_expired env' s' uid c Hu Hc r L').
      destruct (latest_spec _ _ L') as [Hr _].
      unfold s' in Hr. simpl in Hr. rewrite matches_after_consume in Hr.
      apply filter_In in Hr. destruct Hr as [Hr Hm].
      rewrite E in Hpk.
      destruct (split_other x l1 l2 r Hpk Hr) as [Hne Hin].
      rewrite <- E in Hin.
      apply Hother; trivial. now apply matches_iff.
    + exists "Invalid or expired code".
      exact (verify_run_none env' s' uid c Hu Hc L').
Qed.

Lemma verify_consumes_most_recent_witness :
  fst (verify (mkEnv 3000 0 3000 "u9" "c9")
         (JString "u1") (JString "123456")
         (mkStore [User.mk "u1" "" "" 1001]
            [LoginCode.mk "c1" "u1" "123456" 301000 false 1001]))
  = Verified verify_message "u1".
Proof.
  destruct (verify_consumes_most_recent
              (mkEnv 3000 0 3000 "u9" "c9")
              (mkStore [User.mk "u1" "" "" 1001]
                 [LoginCode.mk "c1" "u1" "123456" 301000 false 1001])
              "u1" "123456")
    as (lc & l1 & l2 & _ & _ & R & _).
  - discriminate.
  - discriminate.
  - repeat constructor. intros [].
  - eexists. split; [left; reflexivity|]. repeat split.
  - intros r ([<- | []] & _). simpl. lia.
  - rewrite R. reflexivity.
Defined.

(** C1, as stated, fails where two unconsumed login codes match the same
    (userId, code).  In the first state, reached by a signup and a login
    that drew the same random code, a valid code exists and verify
    succeeds, yet a second verify afterward succeeds again instead of
    failing.  In the second state a matching code is unconsumed and
    unexpired, yet verify fails because a more recent matching code has
    expired. *)
Lemma verify_twice_counterexample :
  let s0 :=
    db (snd (login (mkEnv 2000 123456 2001 "u2" "c2") (JString "a@b.c")
               (db (snd (signup (mkEnv 1000 123456 1001 "u1" "c1")
                           (JString "a@b.c") (JString "555")
                           empty_store))))) in
  let s1 :=
    db (snd (verify (mkEnv 3000 0 3000 "u9" "c9")
               (JString "u1") (JString "123456") s0)) in
  login_codes s0 =
    [LoginCode.mk "c1" "u1" "123456" 301000 false 1001;
     LoginCode.mk "c2" "u1" "123456" 302000 false 2001] /\
  fst (verify (mkEnv 3000 0 3000 "u9" "c9")
         (JString "u1") (JString "123456") s0)
  = Verified verify_message "u1" /\
  fst (verify (mkEnv 4000 0 4000 "u9" "c9")
         (JString "u1") (JString "123456") s1)
  = Verified verify_message "u1" /\
  fst (verify (mkEnv 3000 0 3000 "u9" "c9")
         (JString "u1") (JString "123456")
         (mkStore [User.mk "u1" "" "" 1001]
            [LoginCode.mk "c1" "u1" "123456" 900000 false 1001;
             LoginCode.mk "c2" "u1" "123456" 2500 false 2001]))
  = Fail Unauthorized "Code has expired. Please request a new one.".
Proof. vm_compute. repeat split. Qed.

(** ** Phone numbers without digits *)

Section DigitlessPhones.

Lemma remove_non_digits_digitless p :
  all_chars (fun ch => negb (Js.is_digit ch)) p = true ->
  Js.remove_non_digits p = "".
Proof.
  induction p as [|ch p IH]; simpl; [reflexivity|].
  intros H. apply andb_prop in H. destruct H as [Hch Hp].
  apply negb_true_iff in Hch. rewrite Hch. now apply IH.
Qed.

Lemma hashPhone_digitless p :
  all_chars (fun ch => negb (Js.is_digit ch)) p = true ->
  hashPhone p = sha256_of_empty.
Proof.
  intros H. unfold hashPhone, normalizePhone.
  rewrite (remove_non_digits_digitless p H). exact hashString_empty.
Qed.

End DigitlessPhones.

(** C10.  A non-empty phone string without any decimal digit passes the
    validation of signup; [normalizePhone] maps it to the empty string, and
    the user row that signup stores has the SHA-256 digest of the empty
    string as [phoneHash].  Two signups of different emails with such
    phones therefore store two users with the same [phoneHash]. *)
Theorem digitless_phones_collide (env1 env2 : Env) (s : Store)
  (email1 email2 phone1 phone2 : string)
  (He1 : email1 <> "") (He2 : email2 <> "")
  (Hp1 : phone1 <> "") (Hp2 : phone2 <> "")
  (Hd1 : all_chars (fun ch => negb (Js.is_digit ch)) phone1 = true)
  (Hd2 : all_chars (fun ch => negb (Js.is_digit ch)) phone2 = true)
  (Hne : hashEmail email1 <> hashEmail email2)
  (Hno1 : forall u, In u (users s) -> User.emailHash u <> hashEmail email1)
  (Hno2 : forall u, In u (users s) -> User.emailHash u <> hashEmail email2)
  (Hu1 : forall u, In u (users s) -> User.id u <> new_user_id env1)
  (Hu2 : forall u, In u (users s) -> User.id u <> new_user_id env2)
  (Hu12 : new_user_id env1 <> new_user_id env2)
  (Hc1 : forall c, In c (login_codes s) -> LoginCode.id c <> new_code_id env1)
  (Hc2 : forall c, In c (login_codes s) -> LoginCode.id c <> new_code_id env2)
  (Hc12 : new_code_id env1 <> new_code_id env2) :
  truthy (JString phone1) = true /\
  normalizePhone phone1 = "" /\ normalizePhone phone2 = "" /\
  hashPhone phone1 = sha256_of_empty /\
  hashPhone phone2 = sha256_of_empty /\
  let r1 := signup env1 (JString email1) (JString phone1) s in
  let r2 := signup env2 (JString email2) (JString phone2) (db (snd r1)) in
  fst r1 = Created signup_message (new_user_id env1)
                   (generateOTP (random env1)) /\
  fst r2 = Created signup_message (new_user_id env2)
                   (generateOTP (random env2)) /\
  users (db (snd r2)) =
  users s ++
    [User.mk (new_user_id env1) (hashEmail email1) sha256_of_empty
             (db_clock env1);
     User.mk (new_user_id env2) (hashEmail email2) sha256_of_empty
             (db_clock env2)].
Proof.
  split; [now apply truthy_string|].
  split; [now apply remove_non_digits_digitless|].
  split; [now apply remove_non_digits_digitless|].
  split; [now apply hashPhone_digitless|].
  split; [now apply hashPhone_digitless|].
  intros r1 r2.
  assert (R1 := signup_run_created env1 s email1 phone1 He1 Hp1
                  (no_emailHash _ _ Hno1) (no_user_id _ _ Hu1)
                  (no_code_id _ _ Hc1)).
  fold r1 in R1.
  rewrite (hashPhone_digitless phone1 Hd1) in R1.
  assert (R2 : r2 = signup env2 (JString email2) (JString phone2)
                      (db (snd r1))) by reflexivity.
  rewrite R1 in R2. cbn [snd db] in R2.
  rewrite signup_run_created in R2; trivial.
  - rewrite (hashPhone_digitless phone2 Hd2) in R2.
    rewrite R1, R2. cbn [fst snd db users].
    split; [reflexivity|]. split; [reflexivity|].
    now rewrite <- app_assoc.
  - apply no_emailHash. cbn [users]. intros u Hin.
    apply in_app_or in Hin. destruct Hin as [Hin | [<- | []]].
    + now apply Hno2.
    + exact Hne.
  - apply no_user_id. cbn [users]. intros u Hin.
    apply in_app_or in Hin. destruct Hin as [Hin | [<- | []]].
    + now apply Hu2.
    + exact Hu12.
  - apply no_code_id. cbn [login_codes]. intros c Hin.
    apply in_app_or in Hin. destruct Hin as [Hin | [<- | []]].
    + now apply Hc2.
    + exact Hc12.
Qed.

Lemma digitless_phones_collide_witness :
  users (db (snd (signup (mkEnv 2000 8 2001 "u2" "c2")
                    (JString "b@test.com") (JString "n/a")
                    (db (snd (signup (mkEnv 1000 7 1001 "u1" "c1")
                                (JString "a@test.com") (JString "abc")
                                empty_store))))))
  = [User.mk "u1" (hashEmail "a@test.com") sha256_of_empty 1001;
     User.mk "u2" (hashEmail "b@test.com") sha256_of_empty 2001].
Proof.
  assert (Hne : hashEmail "a@test.com" <> hashEmail "b@test.com")
    by (vm_compute; intros E; discriminate E).
  exact (proj2 (proj2 (proj2 (proj2 (proj2 (proj2 (proj2
    (digitless_phones_collide
       (mkEnv 1000 7 1001 "u1" "c1") (mkEnv 2000 8 2001 "u2" "c2")
       empty_store "a@test.com" "b@test.com" "abc" "n/a"
       ltac:(discriminate) ltac:(discriminate)
       ltac:(discriminate) ltac:(discriminate)
       eq_refl eq_refl Hne
       (fun u (H : In u []) => match H with end)
       (fun u (H : In u []) => match H with end)
       (fun u (H : In u []) => match H with end)
       (fun u (H : In u []) => match H with end)
       ltac:(discriminate)
       (fun c (H : In c []) => match H with end)
       (fun c (H : In c []) => match H with end)
       ltac:(discriminate))))))))).
Defined.

(** ** Reachable stores *)

Section Reachability.

Lemma world_eta w : mkWorld (db w) (sent w) = w.
Proof. now destruct w. Qed.

Lemma keeps_ret P {A} (a : A) : keeps P (ret a).
Proof. intros w H. exact H. Qed.

Lemma keeps_throw P {A} e : keeps P (@throw A e).
Proof. intros w H. exact H. Qed.

Lemma keeps_bind P {A B} (m : Task A) (k : A -> Task B) :
  keeps P m -> (forall a, keeps P (k a)) -> keeps P (bind m k).
Proof.
  intros Hm Hk w H. unfold bind. specialize (Hm w H).
  destruct (m w) as [[a|e] w']; simpl in *; [now apply Hk | exact Hm].
Qed.

Lemma keeps_call_on_string P {A} (f : string -> A) v :
  keeps P (call_on_string f v).
Proof. destruct v; simpl; first [apply keeps_ret | apply keeps_throw]. Qed.

Lemma keeps_string_argument P v : keeps P (string_argument v).
Proof. destruct v; simpl; first [apply keeps_ret | apply keeps_throw]. Qed.

Lemma keeps_findUnique P h : keeps P (Prisma.user_findUnique h).
Proof. intros w H. exact H. Qed.

Lemma keeps_findFirst P uid c : keeps P (Prisma.loginCode_findFirst uid c).
Proof. intros w H. exact H. Qed.

Lemma keeps_user_create env eh ph :
  keeps reachable (Prisma.user_create env eh ph).
Proof.
  intros w H.
  apply (reach_user_create (db w) env eh ph (sent w)
           (fst (Prisma.user_create env eh ph w))
           (snd (Prisma.user_create env eh ph w)) H).
  rewrite world_eta. now destruct (Prisma.user_create env eh ph w).
Qed.

Lemma keeps_loginCode_create env uid c exp :
  keeps reachable (Prisma.loginCode_create env uid c exp).
Proof.
  intros w H.
  apply (reach_loginCode_create (db w) env uid c exp (sent w)
           (fst (Prisma.loginCode_create env uid c exp w))
           (snd (Prisma.loginCode_create env uid c exp w)) H).
  rewrite world_eta. now destruct (Prisma.loginCode_create env uid c exp w).
Qed.

Lemma keeps_loginCode_update i :
  keeps reachable (Prisma.loginCode_update i).
Proof.
  intros w H.
  apply (reach_loginCode_update (db w) i (sent w)
           (fst (Prisma.loginCode_update i w))
           (snd (Prisma.loginCode_update i w)) H).
  rewrite world_eta. now destruct (Prisma.loginCode_update i w).
Qed.

Ltac keeps_step :=
  first [ apply keeps_ret | apply keeps_throw
        | apply keeps_call_on_string | apply keeps_string_argument
        | apply keeps_findUnique | apply keeps_findFirst
        | apply keeps_user_create | apply keeps_loginCode_create
        | apply keeps_loginCode_update
        | apply keeps_bind; [|intros ?] ].

Lemma keeps_signup_body env email phone :
  keeps reachable (signup_body env email phone).
Proof.
  unfold signup_body.
  destruct (negb (truthy email) || negb (truthy phone));
    repeat keeps_step.
  match goal with |- keeps _ (match ?x with _ => _ end) => destruct x end;
    repeat keeps_step.
Qed.

Lemma keeps_login_body env email :
  keeps reachable (login_body env email).
Proof.
  unfold login_body.
  destruct (negb (truthy email)); repeat keeps_step.
  match goal with |- keeps _ (match ?x with _ => _ end) => destruct x end;
    repeat keeps_step.
Qed.

Lemma keeps_verify_body env userId code :
  keeps reachable (verify_body env userId code).
Proof.
  unfold verify_body.
  destruct (negb (truthy userId) || negb (truthy code));
    repeat keeps_step.
  match goal with |- keeps _ (match ?x with _ => _ end) => destruct x end;
    repeat keeps_step.
  match goal with |- keeps _ (if ?x then _ else _) => destruct x end;
    repeat keeps_step.
Qed.

Lemma try_catch_db body s :
  db (snd (try_catch body s)) = db (snd (body (mkWorld s []))).
Proof.
  unfold try_catch. now destruct (body (mkWorld s [])) as [[r|e] w].
Qed.

Lemma keeps_try_catch body s :
  keeps reachable body -> reachable s ->
  reachable (db (snd (try_catch body s))).
Proof.
  intros Hb Hs. rewrite try_catch_db. now apply (Hb (mkWorld s [])).
Qed.

(** The constraints of the migration script hold in every reachable
    store. *)
Lemma reachable_schema_ok s : reachable s -> schema_ok s.
Proof.
  induction 1 as [| s env eh ph log r w Hs IH E
                  | s env uid c exp log r w Hs IH E
                  | s i log r w Hs IH E].
  - repeat split; simpl; try constructor. intros c [].
  - destruct IH as (Hid & Hh & Hc & Hfk).
    unfold Prisma.user_create, bind, send, get_store, put_store, ret,
      throw in E. cbn [db sent] in E.
    destruct (Prisma.has_user_id s (new_user_id env)) eqn:Hu;
      [inversion E; subst; now repeat split|].
    destruct (Prisma.has_emailHash s eh) eqn:He;
      inversion E; subst; cbn [db]; [now repeat split|].
    repeat split; cbn [users login_codes]; trivial.
    + rewrite map_app. apply NoDup_app; trivial;
        [repeat constructor; intros [] |].
      intros x Hx [<- | []]. apply in_map_iff in Hx.
      destruct Hx as (u & Eu & Hin).
      assert (Prisma.has_user_id s (User.id u) = true)
        by (apply has_user_id_iff; now exists u).
      simpl in Eu. rewrite <- Eu in Hu. congruence.
    + rewrite map_app. apply NoDup_app; trivial;
        [repeat constructor; intros [] |].
      intros x Hx [<- | []]. apply in_map_iff in Hx.
      destruct Hx as (u & Eu & Hin).
      assert (Prisma.has_emailHash s (User.emailHash u) = true)
        by (apply has_emailHash_iff; now exists u).
      simpl in Eu. rewrite <- Eu in He. congruence.
    + intros c Hin. destruct (Hfk c Hin) as (u & Hu' & Eu).
      exists u. split; [apply in_or_app; now left | exact Eu].
  - destruct IH as (Hid & Hh & Hc & Hfk).
    unfold Prisma.loginCode_create, bind, send, get_store, put_store, ret,
      throw in E. cbn [db sent] in E.
    destruct (Prisma.has_code_id s (new_code_id env)) eqn:Hn;
      [inversion E; subst; now repeat split|].
    destruct (Prisma.has_user_id s uid) eqn:Hu;
      inversion E; subst; cbn [db negb]; [|now repeat split].
    repeat split; cbn [users login_codes]; trivial.
    + rewrite map_app. apply NoDup_app; trivial;
        [repeat constructor; intros [] |].
      intros x Hx [<- | []]. apply in_map_iff in Hx.
      destruct Hx as (c' & Ec & Hin).
      assert (Prisma.has_code_id s (LoginCode.id c') = true)
        by (apply has_code_id_iff; now exists c').
      simpl in Ec. rewrite <- Ec in Hn. congruence.
    + intros c' Hin. apply in_app_or in Hin.
      destruct Hin as [Hin | [<- | []]]; [now apply Hfk|].
      now apply has_user_id_iff.
  - destruct IH as (Hid & Hh & Hc & Hfk).
    unfold Prisma.loginCode_update, bind, send, get_store, put_store, ret,
      throw in E. cbn [db sent] in E.
    destruct (Prisma.has_code_id s i);
      inversion E; subst; cbn [db]; [|now repeat split].
    repeat split; cbn [users login_codes]; trivial.
    + rewrite map_map.
      rewrite (map_ext _ LoginCode.id); [exact Hc|].
      intros c. unfold Prisma.set_consumed.
      now destruct (LoginCode.id c =? i)%string.
    + intros c Hin. apply in_map_iff in Hin.
      destruct Hin as (c0 & <- & Hin0).
      destruct (Hfk c0 Hin0) as (u & Hu & Eu). exists u.
      split; [exact Hu|]. rewrite Eu. unfold Prisma.set_consumed.
      now destruct (LoginCode.id c0 =? i)%string.
Qed.

Lemma NoDup_map_eq {A B} (f : A -> B) (l : list A) x y :
  NoDup (map f l) -> In x l -> In y l -> f x = f y -> x = y.
Proof.
  induction l as [|a l IH]; intros Hnd Hx Hy E; [destruct Hx|].
  simpl in Hnd. inversion Hnd as [|? ? Ha Hl]; subst.
  destruct Hx as [-> | Hx], Hy as [-> | Hy]; trivial.
  - elim Ha. rewrite E. now apply in_map.
  - elim Ha. rewrite <- E. now apply in_map.
  - now apply IH.
Qed.

Lemma user_create_duplicate env eh ph w :
  (exists u, In u (users (db w)) /\ User.emailHash u = eh) ->
  exists k,
    Prisma.user_create env eh ph w =
    (Throw (UniqueConstraintFailed k),
     mkWorld (db w) (sent w ++ [QUserCreate eh ph])).
Proof.
  intros Hex. apply has_emailHash_iff in Hex.
  unfold Prisma.user_create, bind, send, get_store, put_store, ret, throw.
  cbn [db sent].
  destruct (Prisma.has_user_id (db w) (new_user_id env));
    [now eexists|].
  rewrite Hex. now eexists.
Qed.

End Reachability.

(** C5.  In every store reachable from the empty one by the storage
    operations (and so by signup, login and verify, which only act through
    them) no two users have the same [emailHash]; hence no two stored users
    stand for the same normalized email.  The uniqueness is enforced by the
    storage layer itself: [user.create] on a store that already holds the
    hash throws a unique-constraint failure and stores nothing, whoever the
    caller is. *)
Theorem emailHash_unique_in_reachable_stores :
  (forall s, reachable s -> NoDup (map User.emailHash (users s))) /\
  (forall s u1 u2 e1 e2,
      reachable s -> In u1 (users s) -> In u2 (users s) ->
      User.emailHash u1 = hashEmail e1 -> User.emailHash u2 = hashEmail e2 ->
      normalizeEmail e1 = normalizeEmail e2 -> u1 = u2) /\
  (forall s env a b,
      reachable s ->
      reachable (db (snd (signup env a b s))) /\
      reachable (db (snd (login env a s))) /\
      reachable (db (snd (verify env a b s)))) /\
  (forall env eh ph w,
      (exists u, In u (users (db w)) /\ User.emailHash u = eh) ->
      exists k,
        Prisma.user_create env eh ph w =
        (Throw (UniqueConstraintFailed k),
         mkWorld (db w) (sent w ++ [QUserCreate eh ph]))).
Proof.
  split; [|split; [|split]].
  - intros s Hs. exact (proj1 (proj2 (reachable_schema_ok s Hs))).
  - intros s u1 u2 e1 e2 Hs H1 H2 E1 E2 En.
    apply (NoDup_map_eq User.emailHash (users s)); trivial.
    + exact (proj1 (proj2 (reachable_schema_ok s Hs))).
    + rewrite E1, E2. unfold hashEmail. now rewrite En.
  - intros s env a b Hs. split; [|split].
    + apply keeps_try_catch; [apply keeps_signup_body | exact Hs].
    + apply keeps_try_catch; [apply keeps_login_body | exact Hs].
    + apply keeps_try_catch; [apply keeps_verify_body | exact Hs].
  - apply user_create_duplicate.
Qed.

Lemma emailHash_unique_in_reachable_stores_witness :
  reachable (db (snd (signup (mkEnv 1000 7 1001 "u1" "c1")
                        (JString "a@test.com") (JString "555")
                        empty_store))) /\
  NoDup (map User.emailHash
           (users (db (snd (signup (mkEnv 1000 7 1001 "u1" "c1")
                              (JString "a@test.com") (JString "555")
                              empty_store))))).
Proof.
  destruct emailHash_unique_in_reachable_stores as (Huniq & _ & Hstep & _).
  assert (R : reachable
                (db (snd (signup (mkEnv 1000 7 1001 "u1" "c1")
                            (JString "a@test.com") (JString "555")
                            empty_store))))
    by exact (proj1 (Hstep empty_store (mkEnv 1000 7 1001 "u1" "c1")
                       (JString "a@test.com") (JString "555") reach_empty)).
  split; [exact R | exact (Huniq _ R)].
Defined.

(** ** Interleaved verify requests *)

Section Interleaving.

(** A thread that runs alone is the handler. *)
Lemma verify_alone env userId code t2 s :
  run [true; true] (verify_start env userId code) t2 (mkWorld s []) =
  (Responded (fst (verify env userId code s)), t2,
   snd (verify env userId code s)).
Proof.
  unfold verify, try_catch, verify_body, verify_start.
  destruct (negb (truthy userId) || negb (truthy code)); [reflexivity|].
  destruct userId as [| |b|n|uid]; try reflexivity.
  destruct code as [| |b|n|c]; try reflexivity.
  unfold run, thread_step, verify_resume, string_argument, bind, ret.
  cbn [fst snd].
  destruct (Prisma.loginCode_findFirst uid c (mkWorld s []))
    as [[[lc|]|e] w]; try reflexivity.
  destruct (negb (isOTPValid (clock env) (LoginCode.expiresAt lc)));
    [reflexivity|].
  destruct (Prisma.loginCode_update (LoginCode.id lc) w) as [[[]|e] w'];
    reflexivity.
Qed.

Variables (uid c : string) (lc : LoginCode.t).

Lemma step_find_some env w :
  Prisma.latest (filter (Prisma.matches uid c) (login_codes (db w)))
  = Some lc ->
  clock env < LoginCode.expiresAt lc ->
  thread_step (AwaitFindFirst env uid c) w =
  (AwaitUpdate uid lc,
   mkWorld (db w) (sent w ++ [QLoginCodeFindFirst uid c])).
Proof.
  intros L E.
  unfold thread_step, verify_resume, Prisma.loginCode_findFirst, bind,
    send, get_store, ret.
  cbn [db sent]. rewrite L. unfold isOTPValid.
  destruct (Z.ltb_spec (clock env) (LoginCode.expiresAt lc)); [|lia].
  reflexivity.
Qed.

Lemma step_find_none env w :
  Prisma.latest (filter (Prisma.matches uid c) (login_codes (db w)))
  = None ->
  thread_step (AwaitFindFirst env uid c) w =
  (Responded (Fail Unauthorized "Invalid or expired code"),
   mkWorld (db w) (sent w ++ [QLoginCodeFindFirst uid c])).
Proof.
  intros L.
  unfold thread_step, verify_resume, Prisma.loginCode_findFirst, bind,
    send, get_store, ret.
  cbn [db sent]. now rewrite L.
Qed.

Lemma step_update w :
  Prisma.has_code_id (db w) (LoginCode.id lc) = true ->
  thread_step (AwaitUpdate uid lc) w =
  (Responded (Verified verify_message uid),
   mkWorld (consume_in (db w) lc)
           (sent w ++ [QLoginCodeUpdate (LoginCode.id lc)])).
Proof.
  intros H.
  unfold thread_step, verify_resume, Prisma.loginCode_update, bind,
    send, get_store, put_store, ret.
  cbn [db sent]. now rewrite H.
Qed.

Variable s : Store.
Hypothesis Hpk : NoDup (map LoginCode.id (login_codes s)).
Hypothesis Hin : In lc (login_codes s).
Hypothesis Hmatch : is_match uid c lc.
Hypothesis Hone :
  forall r, In r (login_codes s) -> is_match uid c r -> r = lc.

Lemma only_match_found :
  Prisma.latest (filter (Prisma.matches uid c) (login_codes s)) = Some lc.
Proof.
  destruct (findFirst_some s uid c) as [x L]; [now exists lc|].
  destruct (findFirst_most_recent _ _ _ _ L) as (Hx & Hm & _).
  now rewrite <- (Hone x Hx Hm).
Qed.

Lemma consume_in_split :
  exists l1 l2,
    login_codes s = l1 ++ lc :: l2 /\
    consume_in s lc = mkStore (users s) (l1 ++ LoginCode.consume lc :: l2).
Proof.
  destruct (in_split _ _ Hin) as (l1 & l2 & E).
  exists l1, l2. split; [exact E|].
  unfold consume_in. rewrite E in Hpk. rewrite E at 1.
  now rewrite (set_consumed_split lc l1 l2 Hpk).
Qed.

Lemma only_match_gone :
  Prisma.latest
    (filter (Prisma.matches uid c) (login_codes (consume_in s lc))) = None.
Proof.
  destruct consume_in_split as (l1 & l2 & E & ->).
  cbn [login_codes]. rewrite matches_after_consume.
  destruct (Prisma.latest (filter (Prisma.matches uid c) (l1 ++ l2)))
    as [r|] eqn:L; [|reflexivity].
  destruct (latest_spec _ _ L) as [Hr _].
  apply filter_In in Hr. destruct Hr as [Hr Hm].
  rewrite E in Hpk.
  destruct (split_other lc l1 l2 r Hpk Hr) as [Hne Hr'].
  rewrite <- E in Hr'. elim Hne. apply Hone; trivial.
  now apply matches_iff.
Qed.

Lemma has_code_id_lc : Prisma.has_code_id s (LoginCode.id lc) = true.
Proof. apply has_code_id_iff. now exists lc. Qed.

Lemma has_code_id_consumed :
  Prisma.has_code_id (consume_in s lc) (LoginCode.id lc) = true.
Proof.
  apply has_code_id_iff. exists (LoginCode.consume lc).
  split; [|reflexivity].
  destruct consume_in_split as (l1 & l2 & _ & ->). cbn [login_codes].
  apply in_or_app. right. now left.
Qed.

Lemma consume_in_twice : consume_in (consume_in s lc) lc = consume_in s lc.
Proof.
  unfold consume_in. cbn [users login_codes]. f_equal.
  rewrite map_map. apply map_ext. intros r. unfold Prisma.set_consumed.
  destruct (LoginCode.id r =? LoginCode.id lc)%string eqn:E;
    [|now rewrite E].
  cbn [LoginCode.consume LoginCode.id]. now rewrite E.
Qed.

End Interleaving.

(** C3, as amended.  The lookup and the update of verify are two separate
    storage operations, and the update is by identifier alone, whether or
    not the row is still unconsumed.  For two verify requests presenting
    the one valid code: when one request runs to its end before the other
    starts, exactly one succeeds and the other is answered Unauthorized;
    when both lookups run before either update, both requests succeed and
    the second update is applied to the row already consumed. *)
Theorem concurrent_verify_outcomes (env1 env2 : Env) (s : Store)
  (uid c : string) (lc : LoginCode.t)
  (Hu : uid <> "") (Hc : c <> "")
  (Hpk : NoDup (map LoginCode.id (login_codes s)))
  (Hin : In lc (login_codes s)) (Hmatch : is_match uid c lc)
  (Hone : forall r, In r (login_codes s) -> is_match uid c r -> r = lc)
  (H1 : clock env1 < LoginCode.expiresAt lc)
  (H2 : clock env2 < LoginCode.expiresAt lc) :
  let t1 := verify_start env1 (JString uid) (JString c) in
  let t2 := verify_start env2 (JString uid) (JString c) in
  let ok := Responded (Verified verify_message uid) in
  let rejected := Responded (Fail Unauthorized "Invalid or expired code") in
  let find := QLoginCodeFindFirst uid c in
  let update := QLoginCodeUpdate (LoginCode.id lc) in
  run [true; true; false; false] t1 t2 (mkWorld s []) =
  (ok, rejected, mkWorld (consume_in s lc) [find; update; find]) /\
  run [false; false; true; true] t1 t2 (mkWorld s []) =
  (rejected, ok, mkWorld (consume_in s lc) [find; update; find]) /\
  (forall schedule,
      In schedule [[true; false; true; false]; [true; false; false; true];
                   [false; true; true; false]; [false; true; false; true]] ->
      run schedule t1 t2 (mkWorld s []) =
      (ok, ok, mkWorld (consume_in s lc) [find; find; update; update])).
Proof.
  intros t1 t2 ok rejected find update.
  assert (E1 : t1 = AwaitFindFirst env1 uid c).
  { unfold t1, verify_start.
    now rewrite (truthy_string _ Hu), (truthy_string _ Hc). }
  assert (E2 : t2 = AwaitFindFirst env2 uid c).
  { unfold t2, verify_start.
    now rewrite (truthy_string _ Hu), (truthy_string _ Hc). }
  rewrite E1, E2. clear E1 E2 t1 t2.
  pose proof (only_match_found uid c lc s Hin Hmatch Hone) as F.
  pose proof (only_match_gone uid c lc s Hpk Hin Hone) as G.
  pose proof (has_code_id_lc lc s Hin) as I1.
  pose proof (has_code_id_consumed lc s Hpk Hin) as I2.
  pose proof (consume_in_twice lc s) as T.
  assert (Sfind : forall env log,
             clock env < LoginCode.expiresAt lc ->
             thread_step (AwaitFindFirst env uid c) (mkWorld s log) =
             (AwaitUpdate uid lc, mkWorld s (log ++ [find])))
    by (intros env log Hv; now apply (step_find_some uid c lc env)).
  assert (Sgone : forall env log,
             thread_step (AwaitFindFirst env uid c)
                         (mkWorld (consume_in s lc) log) =
             (rejected, mkWorld (consume_in s lc) (log ++ [find])))
    by (intros env log; now apply (step_find_none uid c env)).
  assert (Supd : forall log,
             thread_step (AwaitUpdate uid lc) (mkWorld s log) =
             (ok, mkWorld (consume_in s lc) (log ++ [update])))
    by (intros log; now apply (step_update uid lc)).
  assert (Supd' : forall log,
             thread_step (AwaitUpdate uid lc)
                         (mkWorld (consume_in s lc) log) =
             (ok, mkWorld (consume_in s lc) (log ++ [update]))).
  { intros log. rewrite (step_update uid lc) by exact I2.
    cbn [db sent]. now rewrite T. }
  assert (Sdone : forall r w, thread_step (Responded r) w = (Responded r, w))
    by reflexivity.
  split; [|split].
  - cbn [run]. rewrite (Sfind env1 [] H1), Supd, Sgone.
    unfold rejected at 1. now rewrite Sdone.
  - cbn [run]. rewrite (Sfind env2 [] H2), Supd, Sgone.
    unfold rejected at 1. now rewrite Sdone.
  - intros schedule Hs.
    destruct Hs as [<- | [<- | [<- | [<- | []]]]]; cbn [run];
      repeat (first [ rewrite (Sfind env1 _ H1) | rewrite (Sfind env2 _ H2)
                    | rewrite Supd | rewrite Supd' ]; cbn [app]);
      reflexivity.
Qed.

Lemma concurrent_verify_outcomes_witness :
  run [true; false; true; false]
      (verify_start (mkEnv 3000 0 3000 "u8" "c8")
                    (JString "u1") (JString "123456"))
      (verify_start (mkEnv 3001 0 3001 "u9" "c9")
                    (JString "u1") (JString "123456"))
      (mkWorld
         (mkStore [User.mk "u1" "" "" 1001]
                  [LoginCode.mk "c1" "u1" "123456" 301000 false 1001]) [])
  = (Responded (Verified verify_message "u1"),
     Responded (Verified verify_message "u1"),
     mkWorld
       (mkStore [User.mk "u1" "" "" 1001]
                [LoginCode.mk "c1" "u1" "123456" 301000 true 1001])
       [QLoginCodeFindFirst "u1" "123456"; QLoginCodeFindFirst "u1" "123456";
        QLoginCodeUpdate "c1"; QLoginCodeUpdate "c1"]).
Proof.
  refine (proj2 (proj2 (concurrent_verify_outcomes
            (mkEnv 3000 0 3000 "u8" "c8") (mkEnv 3001 0 3001 "u9" "c9")
            (mkStore [User.mk "u1" "" "" 1001]
                     [LoginCode.mk "c1" "u1" "123456" 301000 false 1001])
            "u1" "123456"
            (LoginCode.mk "c1" "u1" "123456" 301000 false 1001)
            _ _ _ _ _ _ _ _)) [true; false; true; false] _).
  - discriminate.
  - discriminate.
  - repeat constructor. intros [].
  - left. reflexivity.
  - repeat split.
  - intros r [<- | []] _. reflexivity.
  - simpl. lia.
  - simpl. lia.
  - left. reflexivity.
Defined.

(** C3, as stated, fails: with one valid code in the store and the two
    lookups served before the two updates, both requests are answered with
    success; and the update of an already consumed row goes through. *)
Lemma concurrent_verify_counterexample :
  let s0 := mkStore [User.mk "u1" "" "" 1001]
                    [LoginCode.mk "c1" "u1" "123456" 301000 false 1001] in
  let t1 := verify_start (mkEnv 3000 0 3000 "u8" "c8")
                         (JString "u1") (JString "123456") in
  let t2 := verify_start (mkEnv 3001 0 3001 "u9" "c9")
                         (JString "u1") (JString "123456") in
  fst (run [true; false; true; false] t1 t2 (mkWorld s0 []))
  = (Responded (Verified verify_message "u1"),
     Responded (Verified verify_message "u1")) /\
  Prisma.loginCode_update "c1"
    (mkWorld
       (mkStore [User.mk "u1" "" "" 1001]
                [LoginCode.mk "c1" "u1" "123456" 301000 true 1001]) [])
  = (Ret tt,
     mkWorld
       (mkStore [User.mk "u1" "" "" 1001]
                [LoginCode.mk "c1" "u1" "123456" 301000 true 1001])
       [QLoginCodeUpdate "c1"]).
Proof. vm_compute. split; reflexivity. Qed.

(** * Further properties of the code *)

(** ** Normal forms *)

Section NormalForms.
















Lemma trim_blank s : blank s -> Js.trim s = ""%string.
Proof.
  unfold blank, Js.trim. intros H.
  rewrite <- (app_empty_r s). now rewrite (trimStart_blank s ""%string H).
Qed.



End NormalForms.



(** ** Phone formats *)

Section PhoneFormats.

Lemma remove_non_digits_digits p :
  all_chars Js.is_digit (Js.remove_non_digits p) = true.
Proof.
  induction p as [|c p IH]; simpl; [reflexivity|].
  destruct (Js.is_digit c) eqn:Hc; simpl; [now rewrite Hc | exact IH].
Qed.

Lemma remove_non_digits_fixed p :
  all_chars Js.is_digit p = true -> Js.remove_non_digits p = p.
Proof.
  induction p as [|c p IH]; simpl; [reflexivity|].
  intros H. apply andb_prop in H. destruct H as [Hc Hp].
  now rewrite Hc, (IH Hp).
Qed.

Lemma remove_non_digits_app p q :
  Js.remove_non_digits (p ++ q)%string
  = (Js.remove_non_digits p ++ Js.remove_non_digits q)%string.
Proof.
  induction p as [|c p IH]; simpl; [reflexivity|].
  destruct (Js.is_digit c); simpl; now rewrite IH.
Qed.

Lemma format_variant_normalize p q :
  format_variant p q -> normalizePhone p = normalizePhone q.
Proof.
  unfold normalizePhone.
  induction 1 as [|d s t _ IH|c s t Hc _ IH|c s t Hc _ IH]; simpl.
  - reflexivity.
  - destruct (Js.is_digit d); now rewrite IH.
  - now rewrite Hc.
  - now rewrite Hc.
Qed.

Lemma format_variant_of_empty q :
  Js.remove_non_digits q = ""%string -> format_variant "" q.
Proof.
  induction q as [|c q IH]; simpl; [constructor|].
  destruct (Js.is_digit c) eqn:Hc; [discriminate|].
  intros H. apply fv_skip_right; [exact Hc | now apply IH].
Qed.

Lemma normalize_format_variant p : forall q,
  normalizePhone p = normalizePhone q -> format_variant p q.
Proof.
  unfold normalizePhone.
  induction p as [|c p IHp]; intros q H.
  - apply format_variant_of_empty. now rewrite <- H.
  - simpl in H. destruct (Js.is_digit c) eqn:Hc.
    + induction q as [|d q IHq]; [discriminate|].
      simpl in H. destruct (Js.is_digit d) eqn:Hd.
      * inversion H; subst d. apply fv_same. now apply IHp.
      * apply fv_skip_right; [exact Hd | now apply IHq].
    + apply fv_skip_left; [exact Hc | now apply IHp].
Qed.

End PhoneFormats.

(** X2.  [normalizePhone] returns digits only and returns a string of
    digits as it is, so it is idempotent.  Two phone strings have the same
    normalized form exactly when they differ only in characters that are
    not digits, wherever these stand, and then [hashPhone] gives them the
    same digest. *)
Theorem normalizePhone_format_insensitive :
  (forall p, all_chars Js.is_digit (normalizePhone p) = true) /\
  (forall p, all_chars Js.is_digit p = true -> normalizePhone p = p) /\
  (forall p, normalizePhone (normalizePhone p) = normalizePhone p) /\
  (forall p q, format_variant p q <-> normalizePhone p = normalizePhone q) /\
  (forall p q, format_variant p q -> hashPhone p = hashPhone q).
Proof.
  split; [|split; [|split; [|split]]].
  - apply remove_non_digits_digits.
  - apply remove_non_digits_fixed.
  - intros p. apply remove_non_digits_fixed, remove_non_digits_digits.
  - intros p q. split;
      [apply format_variant_normalize | apply normalize_format_variant].
  - intros p q H. unfold hashPhone.
    now rewrite (format_variant_normalize p q H).
Qed.

Lemma normalizePhone_format_insensitive_witness :
  format_variant "+1 (555) 123-4567" "1.555.123.4567" /\
  normalizePhone "+1 (555) 123-4567" = "15551234567"%string /\
  hashPhone "+1 (555) 123-4567" = hashPhone "1.555.123.4567".
Proof.
  assert (V : format_variant "+1 (555) 123-4567" "1.555.123.4567")
    by (repeat first [ apply fv_empty | apply fv_same
                     | apply fv_skip_left; [reflexivity|]
                     | apply fv_skip_right; [reflexivity|] ]).
  split; [exact V|]. split; [reflexivity|].
  exact (proj2 (proj2 (proj2 (proj2 normalizePhone_format_insensitive)))
           _ _ V).
Defined.

(** ** Codes and numbers *)

Section OtpBijection.

Lemma decimal_from_shift s : forall a,
  decimal_from a s
  = (a * 10 ^ N.of_nat (String.length s) + decimal_from 0 s)%N.
Proof.
  induction s as [|c s IH]; intros a.
  - simpl. lia.
  - cbn [decimal_from String.length]. rewrite pow10_succ.
    rewrite (IH (10 * a + digit_value c)%N), (IH (10 * 0 + digit_value c)%N).
    lia.
Qed.

Lemma digit_value_lt c : Js.is_digit c = true -> (digit_value c < 10)%N.
Proof.
  unfold Js.is_digit, Js.code_unit, digit_value. intros H.
  apply andb_prop in H. destruct H as [Hlo Hhi].
  apply Z.leb_le in Hlo. apply Z.leb_le in Hhi. lia.
Qed.

Lemma digit_value_inj c d :
  Js.is_digit c = true -> Js.is_digit d = true ->
  digit_value c = digit_value d -> c = d.
Proof.
  unfold Js.is_digit, Js.code_unit, digit_value. intros Hc Hd E.
  apply andb_prop in Hc. destruct Hc as [Hc _]. apply Z.leb_le in Hc.
  apply andb_prop in Hd. destruct Hd as [Hd _]. apply Z.leb_le in Hd.
  rewrite <- (ascii_N_embedding c), <- (ascii_N_embedding d).
  f_equal. lia.
Qed.

Lemma decimal_bound s :
  all_chars Js.is_digit s = true ->
  (decimal_from 0 s < 10 ^ N.of_nat (String.length s))%N.
Proof.
  induction s as [|c s IH]; intros H; [reflexivity|].
  cbn [all_chars] in H. apply andb_prop in H. destruct H as [Hc Hs].
  cbn [decimal_from String.length]. rewrite pow10_succ, decimal_from_shift.
  pose proof (digit_value_lt c Hc). specialize (IH Hs). nia.
Qed.

Lemma decimal_inj s : forall t,
  String.length s = String.length t ->
  all_chars Js.is_digit s = true -> all_chars Js.is_digit t = true ->
  decimal_value s = decimal_value t -> s = t.
Proof.
  unfold decimal_value.
  induction s as [|c s IH]; intros [|d t] L Hs Ht E; try discriminate L.
  - reflexivity.
  - cbn [all_chars] in Hs, Ht.
    apply andb_prop in Hs. destruct Hs as [Hc Hs].
    apply andb_prop in Ht. destruct Ht as [Hd Ht].
    cbn [String.length] in L. injection L as L.
    cbn [decimal_from] in E.
    rewrite (decimal_from_shift s), (decimal_from_shift t), <- L in E.
    pose proof (decimal_bound s Hs) as Bs.
    pose proof (decimal_bound t Ht) as Bt. rewrite <- L in Bt.
    pose proof (digit_value_lt c Hc). pose proof (digit_value_lt d Hd).
    assert (Ev : digit_value c = digit_value d) by nia.
    rewrite (digit_value_inj c d Hc Hd Ev). f_equal.
    apply IH; trivial. rewrite Ev in E. lia.
Qed.

Lemma generateOTP_value r : decimal_value (generateOTP r) = r.
Proof.
  unfold generateOTP, Js.padStart, decimal_value.
  rewrite decimal_from_zeros. apply toString_value.
Qed.

Lemma generateOTP_digits r : all_chars Js.is_digit (generateOTP r) = true.
Proof.
  unfold generateOTP, Js.padStart.
  rewrite all_chars_app, all_digits_zeros. simpl.
  now apply digits_from_all_digits.
Qed.

Lemma generateOTP_length r :
  (r < 1000000)%N -> String.length (generateOTP r) = 6%nat.
Proof.
  intros Hr. unfold generateOTP, Js.padStart.
  rewrite length_app, repeat_char_length.
  pose proof (digits_from_length_le 5 (N.to_nat (N.log2 r)) r ""%string Hr)
    as L.
  unfold Js.toString. simpl in L. lia.
Qed.

Lemma generateOTP_length_ge r : (6 <= String.length (generateOTP r))%nat.
Proof.
  unfold generateOTP, Js.padStart.
  rewrite length_app, repeat_char_length. lia.
Qed.

Lemma generateOTP_nonempty r : generateOTP r <> ""%string.
Proof.
  intros E. pose proof (generateOTP_length_ge r) as L.
  rewrite E in L. simpl in L. lia.
Qed.

End OtpBijection.

(** X3.  [generateOTP] loses nothing of the random integer: different
    integers give different codes, and every string of six decimal digits
    is the code of exactly the integer below 1000000 that it denotes.  The
    codes are thus drawn from the six-digit strings as [crypto.randomInt]
    draws from 0..999999. *)
Theorem generateOTP_bijective :
  (forall r1 r2, generateOTP r1 = generateOTP r2 -> r1 = r2) /\
  (forall s,
      String.length s = 6%nat -> all_chars Js.is_digit s = true ->
      (decimal_value s < 1000000)%N /\ generateOTP (decimal_value s) = s).
Proof.
  split.
  - intros r1 r2 E.
    rewrite <- (generateOTP_value r1), <- (generateOTP_value r2).
    now rewrite E.
  - intros s L D.
    assert (B : (decimal_value s < 1000000)%N).
    { pose proof (decimal_bound s D) as B. rewrite L in B. exact B. }
    split; [exact B|].
    apply decimal_inj.
    + now rewrite (generateOTP_length _ B).
    + apply generateOTP_digits.
    + exact D.
    + apply generateOTP_value.
Qed.

Lemma generateOTP_bijective_witness :
  String.length "004217" = 6%nat /\
  decimal_value "004217" = 4217%N /\ generateOTP 4217 = "004217"%string.
Proof.
  split; [reflexivity|]. split; [reflexivity|].
  exact (proj2 (proj2 generateOTP_bijective "004217"%string
                  eq_refl eq_refl)).
Defined.

(** ** Every way a handler can run *)

Section HandlerOutcomes.

Ltac run_handler :=
  cbv beta iota zeta delta
    [signup login verify try_catch signup_body login_body verify_body
     call_on_string string_argument getOTPExpiry
     Prisma.user_findUnique Prisma.user_create Prisma.loginCode_create
     Prisma.loginCode_findFirst Prisma.loginCode_update
     bind send get_store put_store ret throw negb orb];
  cbn [db sent users login_codes User.id app].

Lemma find_none_existsb {A} (f : A -> bool) l :
  find f l = None -> existsb f l = false.
Proof.
  induction l as [|x l IH]; simpl; [reflexivity|].
  destruct (f x); [discriminate | exact IH].
Qed.

Lemma truthy_string_inv s : truthy (JString s) = true -> s <> ""%string.
Proof.
  simpl. intros H. apply negb_true_iff in H. now apply String.eqb_neq.
Qed.

Lemma hashEmail_blank email : blank email -> hashEmail email = sha256_of_empty.
Proof.
  intros H. unfold hashEmail, normalizeEmail.
  rewrite (trim_blank email H). exact hashString_empty.
Qed.

Variables (env : Env) (s : Store).

Lemma signup_run_user_id_taken email phone :
  email <> ""%string -> phone <> ""%string ->
  Prisma.has_emailHash s (hashEmail email) = false ->
  Prisma.has_user_id s (new_user_id env) = true ->
  signup env (JString email) (JString phone) s =
  (Fail InternalError "Internal server error",
   mkWorld s [QUserFindUnique (hashEmail email);
              QUserCreate (hashEmail email) (hashPhone phone)]).
Proof.
  intros He Hp Hex Hu.
  unfold signup, try_catch, signup_body.
  rewrite (truthy_string _ He), (truthy_string _ Hp).
  run_handler.
  rewrite (existsb_false_find _ _ Hex). run_handler.
  now rewrite Hu.
Qed.

Lemma signup_run_code_id_taken email phone :
  email <> ""%string -> phone <> ""%string ->
  Prisma.has_emailHash s (hashEmail email) = false ->
  Prisma.has_user_id s (new_user_id env) = false ->
  Prisma.has_code_id s (new_code_id env) = true ->
  signup env (JString email) (JString phone) s =
  (Fail InternalError "Internal server error",
   mkWorld
     (mkStore
        (users s ++ [User.mk (new_user_id env) (hashEmail email)
                             (hashPhone phone) (db_clock env)])
        (login_codes s))
     [QUserFindUnique (hashEmail email);
      QUserCreate (hashEmail email) (hashPhone phone);
      QLoginCodeCreate (new_user_id env) (generateOTP (random env))
                       (clock env + 5 * 60000)]).
Proof.
  intros He Hp Hex Hu Hc.
  unfold signup, try_catch, signup_body.
  rewrite (truthy_string _ He), (truthy_string _ Hp).
  run_handler.
  rewrite (existsb_false_find _ _ Hex). run_handler.
  rewrite Hu, Hex. run_handler.
  change (Prisma.has_code_id (mkStore _ (login_codes s)) (new_code_id env))
    with (Prisma.has_code_id s (new_code_id env)).
  now rewrite Hc.
Qed.

Lemma login_run_code_id_taken email u :
  email <> ""%string ->
  find (fun u => (User.emailHash u =? hashEmail email)%string) (users s)
  = Some u ->
  Prisma.has_code_id s (new_code_id env) = true ->
  login env (JString email) s =
  (Fail InternalError "Internal server error",
   mkWorld s
     [QUserFindUnique (hashEmail email);
      QLoginCodeCreate (User.id u) (generateOTP (random env))
                       (clock env + 5 * 60000)]).
Proof.
  intros He F Hc.
  unfold login, try_catch, login_body.
  rewrite (truthy_string _ He).
  run_handler. rewrite F. run_handler. now rewrite Hc.
Qed.

(** The fields of a request: one falsy, one not a string, or strings. *)
Lemma signup_fields email phone :
  signup env email phone s =
  (Fail BadRequest "Email and phone are required", mkWorld s []) \/
  signup env email phone s =
  (Fail InternalError "Internal server error", mkWorld s []) \/
  exists e p, email = JString e /\ phone = JString p /\
              e <> ""%string /\ p <> ""%string.
Proof.
  destruct (truthy email) eqn:He;
    [|left; apply signup_falsy; now left].
  destruct (truthy phone) eqn:Hp;
    [|left; apply signup_falsy; now right].
  destruct email as [| |b|n|e]; try discriminate He;
    try (right; left; unfold signup, try_catch, signup_body;
         rewrite He, Hp; reflexivity).
  destruct phone as [| |b|n|p]; try discriminate Hp;
    try (right; left; unfold signup, try_catch, signup_body;
         rewrite He, Hp; reflexivity).
  right. right. exists e, p.
  repeat split; trivial; now apply truthy_string_inv.
Qed.

Lemma login_fields email :
  login env email s = (Fail BadRequest "Email is required", mkWorld s []) \/
  login env email s =
  (Fail InternalError "Internal server error", mkWorld s []) \/
  exists e, email = JString e /\ e <> ""%string.
Proof.
  destruct (truthy email) eqn:He; [|left; now apply login_falsy].
  destruct email as [| |b|n|e]; try discriminate He;
    try (right; left; unfold login, try_catch, login_body;
         rewrite He; reflexivity).
  right. right. exists e. split; trivial. now apply truthy_string_inv.
Qed.

Lemma verify_fields userId code :
  verify env userId code s =
  (Fail BadRequest "User ID and code are required", mkWorld s []) \/
  verify env userId code s =
  (Fail InternalError "Internal server error", mkWorld s []) \/
  exists uid c, userId = JString uid /\ code = JString c /\
                uid <> ""%string /\ c <> ""%string.
Proof.
  destruct (truthy userId) eqn:Hu;
    [|left; apply verify_falsy; now left].
  destruct (truthy code) eqn:Hc;
    [|left; apply verify_falsy; now right].
  destruct userId as [| |b|n|uid]; try discriminate Hu;
    try (right; left; unfold verify, try_catch, verify_body;
         rewrite Hu, Hc; reflexivity).
  destruct code as [| |b|n|c]; try discriminate Hc;
    try (right; left; unfold verify, try_catch, verify_body;
         rewrite Hu, Hc; reflexivity).
  right. right. exists uid, c.
  repeat split; trivial; now apply truthy_string_inv.
Qed.

(** The four ways signup runs on two non-empty strings. *)
Lemma signup_strings email phone :
  email <> ""%string -> phone <> ""%string ->
  let u := User.mk (new_user_id env) (hashEmail email) (hashPhone phone)
                   (db_clock env) in
  let otp := generateOTP (random env) in
  let find := QUserFindUnique (hashEmail email) in
  let create := QUserCreate (hashEmail email) (hashPhone phone) in
  let create_code :=
    QLoginCodeCreate (new_user_id env) otp (clock env + 5 * 60000) in
  (Prisma.has_emailHash s (hashEmail email) = true /\
   signup env (JString email) (JString phone) s =
   (Fail Conflict "Account with this email already exists",
    mkWorld s [find])) \/
  (Prisma.has_emailHash s (hashEmail email) = false /\
   Prisma.has_user_id s (new_user_id env) = true /\
   signup env (JString email) (JString phone) s =
   (Fail InternalError "Internal server error",
    mkWorld s [find; create])) \/
  (Prisma.has_emailHash s (hashEmail email) = false /\
   Prisma.has_user_id s (new_user_id env) = false /\
   Prisma.has_code_id s (new_code_id env) = true /\
   signup env (JString email) (JString phone) s =
   (Fail InternalError "Internal server error",
    mkWorld (mkStore (users s ++ [u]) (login_codes s))
            [find; create; create_code])) \/
  (Prisma.has_emailHash s (hashEmail email) = false /\
   Prisma.has_user_id s (new_user_id env) = false /\
   Prisma.has_code_id s (new_code_id env) = false /\
   signup env (JString email) (JString phone) s =
   (Created signup_message (new_user_id env) otp,
    mkWorld
      (mkStore (users s ++ [u])
         (login_codes s ++
            [LoginCode.mk (new_code_id env) (new_user_id env) otp
                          (clock env + 5 * 60000) false (db_clock env)]))
      [find; create; create_code])).
Proof.
  intros He Hp u otp find create create_code.
  destruct (Prisma.has_emailHash s (hashEmail email)) eqn:Hex.
  { left. split; trivial. now apply signup_run_conflict. }
  destruct (Prisma.has_user_id s (new_user_id env)) eqn:Hu.
  { right. left. repeat split. now apply signup_run_user_id_taken. }
  destruct (Prisma.has_code_id s (new_code_id env)) eqn:Hc.
  { right. right. left. repeat split. now apply signup_run_code_id_taken. }
  right. right. right. repeat split. now apply signup_run_created.
Qed.

(** The three ways login runs on a non-empty string. *)
Lemma login_strings email :
  email <> ""%string ->
  let otp := generateOTP (random env) in
  let find := QUserFindUnique (hashEmail email) in
  (Prisma.has_emailHash s (hashEmail email) = false /\
   login env (JString email) s =
   (Fail NotFound "No account found with this email", mkWorld s [find])) \/
  exists u,
    In u (users s) /\ User.emailHash u = hashEmail email /\
    let create_code :=
      QLoginCodeCreate (User.id u) otp (clock env + 5 * 60000) in
    ((Prisma.has_code_id s (new_code_id env) = true /\
      login env (JString email) s =
      (Fail InternalError "Internal server error",
       mkWorld s [find; create_code])) \/
     (Prisma.has_code_id s (new_code_id env) = false /\
      login env (JString email) s =
      (CodeSent "Verification code sent to your phone." (User.id u) otp,
       mkWorld
         (mkStore (users s)
            (login_codes s ++
               [LoginCode.mk (new_code_id env) (User.id u) otp
                             (clock env + 5 * 60000) false (db_clock env)]))
         [find; create_code]))).
Proof.
  intros He otp find.
  destruct (List.find (fun u => (User.emailHash u =? hashEmail email)%string)
              (users s)) as [u|] eqn:F.
  - right. exists u. destruct (find_some _ _ F) as [Hin Hh].
    apply String.eqb_eq in Hh. split; [exact Hin|]. split; [exact Hh|].
    intros create_code.
    destruct (Prisma.has_code_id s (new_code_id env)) eqn:Hc.
    + left. split; trivial. now apply login_run_code_id_taken.
    + right. split; trivial. now apply login_run_found.
  - left. pose proof (find_none_existsb _ _ F) as Hex.
    split; [exact Hex|]. now apply login_run_not_found.
Qed.

(** The three ways verify runs on two non-empty strings. *)
Lemma verify_strings uid c :
  uid <> ""%string -> c <> ""%string ->
  let find := QLoginCodeFindFirst uid c in
  (Prisma.latest (filter (Prisma.matches uid c) (login_codes s)) = None /\
   verify env (JString uid) (JString c) s =
   (Fail Unauthorized "Invalid or expired code", mkWorld s [find])) \/
  exists lc,
    Prisma.latest (filter (Prisma.matches uid c) (login_codes s)) = Some lc /\
    ((LoginCode.expiresAt lc <= clock env /\
      verify env (JString uid) (JString c) s =
      (Fail Unauthorized "Code has expired. Please request a new one.",
       mkWorld s [find])) \/
     (clock env < LoginCode.expiresAt lc /\
      verify env (JString uid) (JString c) s =
      (Verified verify_message uid,
       mkWorld (consume_in s lc)
               [find; QLoginCodeUpdate (LoginCode.id lc)]))).
Proof.
  intros Hu Hc find.
  destruct (Prisma.latest (filter (Prisma.matches uid c) (login_codes s)))
    as [lc|] eqn:L.
  - right. exists lc. split; [reflexivity|].
    destruct (Z.lt_ge_cases (clock env) (LoginCode.expiresAt lc)) as [E|E].
    + right. split; [exact E|].
      exact (verify_run_ok env s uid c Hu Hc lc L E).
    + left. split; [exact E|].
      exact (verify_run_expired env s uid c Hu Hc lc L E).
  - left. split; [reflexivity|]. now apply verify_run_none.
Qed.

End HandlerOutcomes.

(** X4.  An email made of whitespace only is not empty for the validation
    of signup, and is hashed as the empty string: signup stores a user whose
    [emailHash] is the SHA-256 digest of the empty string, the value the
    database test script gives its example user.  From then on every signup
    with an email made of whitespace only is answered Conflict. *)
Theorem blank_email_is_an_account (env : Env) (s : Store)
  (email phone : string)
  (Hb : blank email) (He : email <> ""%string) (Hp : phone <> ""%string)
  (Hno : forall u, In u (users s) -> User.emailHash u <> sha256_of_empty)
  (Hu : forall u, In u (users s) -> User.id u <> new_user_id env)
  (Hc : forall c, In c (login_codes s) -> LoginCode.id c <> new_code_id env) :
  hashEmail email = sha256_of_empty /\
  exists w,
    signup env (JString email) (JString phone) s =
    (Created signup_message (new_user_id env) (generateOTP (random env)), w) /\
    users (db w) =
    users s ++ [User.mk (new_user_id env) sha256_of_empty (hashPhone phone)
                        (db_clock env)] /\
    forall env' email' phone',
      blank email' -> email' <> ""%string -> phone' <> ""%string ->
      signup env' (JString email') (JString phone') (db w) =
      (Fail Conflict "Account with this email already exists",
       mkWorld (db w) [QUserFindUnique sha256_of_empty]).
Proof.
  pose proof (hashEmail_blank email Hb) as Hh.
  split; [exact Hh|].
  eexists. split; [|split].
  - apply signup_run_created; trivial.
    + rewrite Hh. now apply no_emailHash.
    + now apply no_user_id.
    + now apply no_code_id.
  - cbn [db users]. now rewrite Hh.
  - intros env' email' phone' Hb' He' Hp'. cbn [db].
    rewrite <- (hashEmail_blank email' Hb').
    apply signup_run_conflict; trivial.
    apply has_emailHash_iff. eexists. split.
    + cbn [users]. apply in_or_app. right. left. reflexivity.
    + cbn [User.emailHash]. now rewrite Hh, (hashEmail_blank email' Hb').
Qed.

Lemma blank_email_is_an_account_witness :
  hashEmail "   " = sha256_of_empty /\
  fst (signup (mkEnv 1000 7 1001 "u1" "c1") (JString "   ") (JString "555")
         empty_store)
  = Created signup_message "u1" "000007".
Proof.
  destruct (blank_email_is_an_account
              (mkEnv 1000 7 1001 "u1" "c1") empty_store
              "   "%string "555"%string eq_refl
              ltac:(discriminate) ltac:(discriminate)
              (fun u (H : In u []) => match H with end)
              (fun u (H : In u []) => match H with end)
              (fun c (H : In c []) => match H with end))
    as (Hh & w & R & _).
  split; [exact Hh|]. rewrite R. reflexivity.
Defined.

(** X5.  A required field of signup or login that is present and truthy
    but is not a string (true, or a number other than 0) is not caught by
    the validation: the hashing throws, the answer is InternalError with
    the fixed message, no query has been sent and the store is unchanged. *)
Theorem non_string_field_is_internal_error (env : Env) (s : Store) :
  (forall email phone,
      truthy email = true -> truthy phone = true ->
      malformed email \/ malformed phone ->
      signup env email phone s =
      (Fail InternalError "Internal server error", mkWorld s [])) /\
  (forall email,
      truthy email = true -> malformed email ->
      login env email s =
      (Fail InternalError "Internal server error", mkWorld s [])).
Proof.
  split.
  - intros email phone He Hp Hm.
    destruct email as [| |b|n|e], phone as [| |b'|n'|p];
      try discriminate He; try discriminate Hp;
      try (unfold signup, try_catch, signup_body; rewrite He, Hp;
           reflexivity).
    destruct Hm as [[] | []].
  - intros email He Hm.
    destruct email as [| |b|n|e]; try discriminate He;
      try (unfold login, try_catch, login_body; rewrite He; reflexivity).
    destruct Hm.
Qed.

Lemma non_string_field_is_internal_error_witness :
  signup (mkEnv 1000 7 1001 "u1" "c1") (JString "a@test.com") (JNumber 5551234)
         empty_store
  = (Fail InternalError "Internal server error", mkWorld empty_store []) /\
  login (mkEnv 1000 7 1001 "u1" "c1") (JBool true) empty_store
  = (Fail InternalError "Internal server error", mkWorld empty_store []).
Proof.
  destruct (non_string_field_is_internal_error
              (mkEnv 1000 7 1001 "u1" "c1") empty_store) as [S L].
  split.
  - apply S; [reflexivity | reflexivity | right; exact I].
  - apply L; [reflexivity | exact I].
Defined.

(** X6.  Verify with non-empty userId and code for which no stored login
    code has that userId, that code and consumed = false (a wrong code,
    another user's code, a code already consumed) is answered Unauthorized
    with the message that does not tell these cases apart; one read was
    sent and the store is unchanged. *)
Theorem verify_without_match (env : Env) (s : Store) (uid c : string)
  (Hu : uid <> ""%string) (Hc : c <> ""%string)
  (Hno : forall r, In r (login_codes s) -> ~ is_match uid c r) :
  verify env (JString uid) (JString c) s =
  (Fail Unauthorized "Invalid or expired code",
   mkWorld s [QLoginCodeFindFirst uid c]).
Proof.
  apply verify_run_none; trivial.
  destruct (Prisma.latest (filter (Prisma.matches uid c) (login_codes s)))
    as [x|] eqn:L; [|reflexivity].
  destruct (findFirst_most_recent _ _ _ _ L) as (Hin & Hm & _).
  elim (Hno x Hin Hm).
Qed.

Lemma verify_without_match_witness :
  verify (mkEnv 3000 0 3000 "u9" "c9") (JString "u1") (JString "654321")
         (mkStore [User.mk "u1" "" "" 1001]
            [LoginCode.mk "c1" "u1" "123456" 301000 false 1001;
             LoginCode.mk "c2" "u1" "654321" 301000 true 1002])
  = (Fail Unauthorized "Invalid or expired code",
     mkWorld (mkStore [User.mk "u1" "" "" 1001]
                [LoginCode.mk "c1" "u1" "123456" 301000 false 1001;
                 LoginCode.mk "c2" "u1" "654321" 301000 true 1002])
             [QLoginCodeFindFirst "u1" "654321"]).
Proof.
  apply verify_without_match; [discriminate | discriminate |].
  intros r [<- | [<- | []]] (_ & Hcode & Hcons);
    [discriminate Hcode | discriminate Hcons].
Defined.



(** X8.  Each handler answers with one of four kinds of response and no
    other: signup with Created, BadRequest, Conflict or InternalError;
    login with success, BadRequest, NotFound or InternalError; verify with
    success, BadRequest, Unauthorized or InternalError.  Every failure
    carries one of the fixed messages of the source (InternalError always
    the same one, whatever was thrown), and a request sends at most three
    (signup) or two (login, verify) queries. *)
Theorem handler_answers (env : Env) (s : Store) (a b : JsonValue) :
  ((exists uid otp, fst (signup env a b s) = Created signup_message uid otp) \/
   fst (signup env a b s) = Fail BadRequest "Email and phone are required" \/
   fst (signup env a b s)
   = Fail Conflict "Account with this email already exists" \/
   fst (signup env a b s) = Fail InternalError "Internal server error") /\
  ((exists uid otp,
       fst (login env a s)
       = CodeSent "Verification code sent to your phone." uid otp) \/
   fst (login env a s) = Fail BadRequest "Email is required" \/
   fst (login env a s) = Fail NotFound "No account found with this email" \/
   fst (login env a s) = Fail InternalError "Internal server error") /\
  ((exists uid, fst (verify env a b s) = Verified verify_message uid) \/
   fst (verify env a b s) = Fail BadRequest "User ID and code are required" \/
   fst (verify env a b s) = Fail Unauthorized "Invalid or expired code" \/
   fst (verify env a b s)
   = Fail Unauthorized "Code has expired. Please request a new one." \/
   fst (verify env a b s) = Fail InternalError "Internal server error") /\
  (List.length (sent (snd (signup env a b s))) <= 3)%nat /\
  (List.length (sent (snd (login env a s))) <= 2)%nat /\
  (List.length (sent (snd (verify env a b s))) <= 2)%nat.
Proof.
  assert (S : ((exists uid otp,
                  fst (signup env a b s) = Created signup_message uid otp) \/
               fst (signup env a b s)
               = Fail BadRequest "Email and phone are required" \/
               fst (signup env a b s)
               = Fail Conflict "Account with this email already exists" \/
               fst (signup env a b s)
               = Fail InternalError "Internal server error") /\
              (List.length (sent (snd (signup env a b s))) <= 3)%nat).
  { destruct (signup_fields env s a b) as [R | [R | (e & p & -> & -> & He & Hp)]];
      [rewrite R; simpl; split; [tauto | lia] ..|].
    destruct (signup_strings env s e p He Hp)
      as [[_ R] | [(_ & _ & R) | [(_ & _ & _ & R) | (_ & _ & _ & R)]]];
      rewrite R; cbn [fst snd sent List.length]; (split; [|lia]);
      [tauto | tauto | tauto | left; eauto]. }
  assert (L : ((exists uid otp,
                  fst (login env a s)
                  = CodeSent "Verification code sent to your phone." uid otp) \/
               fst (login env a s) = Fail BadRequest "Email is required" \/
               fst (login env a s)
               = Fail NotFound "No account found with this email" \/
               fst (login env a s)
               = Fail InternalError "Internal server error") /\
              (List.length (sent (snd (login env a s))) <= 2)%nat).
  { destruct (login_fields env s a) as [R | [R | (e & -> & He)]];
      [rewrite R; simpl; split; [tauto | lia] ..|].
    destruct (login_strings env s e He)
      as [[_ R] | (u & _ & _ & [[_ R] | [_ R]])];
      rewrite R; cbn [fst snd sent List.length]; (split; [|lia]);
      [tauto | tauto | left; eauto]. }
  assert (V : ((exists uid,
                  fst (verify env a b s) = Verified verify_message uid) \/
               fst (verify env a b s)
               = Fail BadRequest "User ID and code are required" \/
               fst (verify env a b s)
               = Fail Unauthorized "Invalid or expired code" \/
               fst (verify env a b s)
               = Fail Unauthorized
                   "Code has expired. Please request a new one." \/
               fst (verify env a b s)
               = Fail InternalError "Internal server error") /\
              (List.length (sent (snd (verify env a b s))) <= 2)%nat).
  { destruct (verify_fields env s a b)
      as [R | [R | (uid & c & -> & -> & Hu & Hc)]];
      [rewrite R; simpl; split; [tauto | lia] ..|].
    destruct (verify_strings env s uid c Hu Hc)
      as [[_ R] | (lc & _ & [[_ R] | [_ R]])];
      rewrite R; cbn [fst snd sent List.length]; (split; [|lia]);
      [tauto | tauto | left; eauto]. }
  tauto.
Qed.

(** ** A code that was just issued *)

Section IssuedCodes.

Lemma latest_last l x :
  (forall y, In y l -> LoginCode.createdAt y < LoginCode.createdAt x) ->
  Prisma.latest (l ++ [x]) = Some x.
Proof.
  induction l as [|r l IH]; intros H; [reflexivity|].
  cbn [app Prisma.latest]. rewrite IH by (intros y Hy; apply H; now right).
  assert (E : LoginCode.createdAt r < LoginCode.createdAt x)
    by (apply H; now left).
  apply Z.ltb_lt in E. now rewrite E.
Qed.

Lemma matches_new_row i uid c exp t :
  Prisma.matches uid c (LoginCode.mk i uid c exp false t) = true.
Proof.
  unfold Prisma.matches. cbn. now rewrite !String.eqb_refl.
Qed.

(** After a row for (uid, c) has been appended that is more recent than
    every other unconsumed row for (uid, c), [findFirst] returns it. *)
Lemma findFirst_new_row (l : list LoginCode.t) i uid c exp t :
  (forall r, In r l -> is_match uid c r -> LoginCode.createdAt r < t) ->
  Prisma.latest
    (filter (Prisma.matches uid c) (l ++ [LoginCode.mk i uid c exp false t]))
  = Some (LoginCode.mk i uid c exp false t).
Proof.
  intros H. rewrite filter_app. cbn [filter].
  rewrite matches_new_row. apply latest_last.
  intros y Hy. apply filter_In in Hy. destruct Hy as [Hy Hm].
  apply H; [exact Hy | now apply matches_iff].
Qed.

Lemma consume_new_row (l : list LoginCode.t) row :
  (forall r, In r l -> LoginCode.id r <> LoginCode.id row) ->
  map (Prisma.set_consumed (LoginCode.id row)) (l ++ [row])
  = l ++ [LoginCode.consume row].
Proof.
  intros H. rewrite map_app. rewrite set_consumed_other.
  - cbn [map]. unfold Prisma.set_consumed. now rewrite String.eqb_refl.
  - intros Hin. apply in_map_iff in Hin. destruct Hin as (r & E & Hr).
    exact (H r Hr E).
Qed.

Variables (env' : Env) (us : list User.t) (l : list LoginCode.t).
Variables (i uid c : string) (exp t : Z).
Hypotheses (Hu : uid <> ""%string) (Hc : c <> ""%string).
Hypothesis Hfresh : forall r, In r l -> LoginCode.id r <> i.
Hypothesis Hrecent :
  forall r, In r l -> is_match uid c r -> LoginCode.createdAt r < t.

Lemma verify_new_row_in_time :
  clock env' < exp ->
  verify env' (JString uid) (JString c)
         (mkStore us (l ++ [LoginCode.mk i uid c exp false t])) =
  (Verified verify_message uid,
   mkWorld (mkStore us (l ++ [LoginCode.mk i uid c exp true t]))
           [QLoginCodeFindFirst uid c; QLoginCodeUpdate i]).
Proof.
  intros E.
  rewrite (verify_run_ok env' _ uid c Hu Hc
             (LoginCode.mk i uid c exp false t)).
  - pose proof (consume_new_row l (LoginCode.mk i uid c exp false t) Hfresh)
      as K.
    cbn [LoginCode.id LoginCode.userId LoginCode.code LoginCode.expiresAt
         LoginCode.createdAt LoginCode.consume] in K.
    cbn [users login_codes LoginCode.id]. now rewrite K.
  - cbn [login_codes]. now apply findFirst_new_row.
  - exact E.
Qed.

Lemma verify_new_row_too_late :
  exp <= clock env' ->
  verify env' (JString uid) (JString c)
         (mkStore us (l ++ [LoginCode.mk i uid c exp false t])) =
  (Fail Unauthorized "Code has expired. Please request a new one.",
   mkWorld (mkStore us (l ++ [LoginCode.mk i uid c exp false t]))
           [QLoginCodeFindFirst uid c]).
Proof.
  intros E.
  apply (verify_run_expired env' _ uid c Hu Hc
           (LoginCode.mk i uid c exp false t)).
  - cbn [login_codes]. now apply findFirst_new_row.
  - exact E.
Qed.

End IssuedCodes.

Section AfterSignup.

Lemma find_app_none {A} (f : A -> bool) l l' :
  find f l = None -> find f (l ++ l') = find f l'.
Proof.
  induction l as [|x l IH]; simpl; [reflexivity|].
  destruct (f x); [discriminate | exact IH].
Qed.

Lemma has_emailHash_app us cs u :
  Prisma.has_emailHash (mkStore (us ++ [u]) cs) (User.emailHash u) = true.
Proof.
  unfold Prisma.has_emailHash. cbn [users]. rewrite existsb_app. cbn.
  now rewrite String.eqb_refl, orb_true_r.
Qed.

Lemma find_emailHash_app us u :
  existsb (fun v => (User.emailHash v =? User.emailHash u)%string) us = false ->
  find (fun v => (User.emailHash v =? User.emailHash u)%string) (us ++ [u])
  = Some u.
Proof.
  intros H. rewrite (find_app_none _ _ _ (existsb_false_find _ _ H)).
  cbn. now rewrite String.eqb_refl.
Qed.

End AfterSignup.

(** X9.  A code issued by signup verifies once within five minutes.
    After a successful signup on a store whose login codes all belong to
    stored users, verify with the returned userId and code succeeds and
    consumes that code when the clock reading is less than five minutes
    after the one of signup, is answered Unauthorized (code expired, store
    unchanged) from five minutes on, and any other code is answered
    Unauthorized without changing the store. *)
Theorem signup_then_verify (env env' : Env) (s : Store)
  (email phone : string)
  (He : email <> ""%string) (Hp : phone <> ""%string)
  (Hid : new_user_id env <> ""%string)
  (Hfk : forall c, In c (login_codes s) ->
                   exists u, In u (users s) /\ User.id u = LoginCode.userId c)
  (Hno : forall u, In u (users s) -> User.emailHash u <> hashEmail email)
  (Hu : forall u, In u (users s) -> User.id u <> new_user_id env)
  (Hc : forall c, In c (login_codes s) -> LoginCode.id c <> new_code_id env) :
  let uid := new_user_id env in
  let otp := generateOTP (random env) in
  let s1 := db (snd (signup env (JString email) (JString phone) s)) in
  let issued consumed :=
    LoginCode.mk (new_code_id env) uid otp (clock env + 5 * 60000) consumed
                 (db_clock env) in
  fst (signup env (JString email) (JString phone) s)
  = Created signup_message uid otp /\
  login_codes s1 = login_codes s ++ [issued false] /\
  (clock env' < clock env + 5 * 60000 ->
   verify env' (JString uid) (JString otp) s1 =
   (Verified verify_message uid,
    mkWorld (mkStore (users s1) (login_codes s ++ [issued true]))
            [QLoginCodeFindFirst uid otp;
             QLoginCodeUpdate (new_code_id env)])) /\
  (clock env + 5 * 60000 <= clock env' ->
   verify env' (JString uid) (JString otp) s1 =
   (Fail Unauthorized "Code has expired. Please request a new one.",
    mkWorld s1 [QLoginCodeFindFirst uid otp])) /\
  (forall c, c <> ""%string -> c <> otp ->
   verify env' (JString uid) (JString c) s1 =
   (Fail Unauthorized "Invalid or expired code",
    mkWorld s1 [QLoginCodeFindFirst uid c])).
Proof.
  intros uid otp s1 issued.
  pose proof (signup_run_created env s email phone He Hp
                (no_emailHash _ _ Hno) (no_user_id _ _ Hu)
                (no_code_id _ _ Hc)) as R.
  assert (Hown : forall r, In r (login_codes s) ->
                           LoginCode.userId r <> uid).
  { intros r Hr E. destruct (Hfk r Hr) as (u & Hin & Eu).
    apply (Hu u Hin). now rewrite Eu. }
  assert (Hnone : forall c r, In r (login_codes s) -> is_match uid c r ->
                              LoginCode.createdAt r < db_clock env).
  { intros c r Hr (E & _). elim (Hown r Hr E). }
  unfold s1. rewrite R. cbn [fst snd db login_codes users].
  split; [reflexivity|]. split; [reflexivity|].
  split; [|split].
  - intros E.
    apply verify_new_row_in_time; trivial;
      [apply generateOTP_nonempty | apply Hnone].
  - intros E.
    apply verify_new_row_too_late; trivial;
      [apply generateOTP_nonempty | apply Hnone].
  - intros c Hne Hdiff. apply verify_run_none; trivial.
    destruct (Prisma.latest _) as [x|] eqn:L; [|reflexivity].
    destruct (findFirst_most_recent _ _ _ _ L) as (Hin & (Ex & Ec & _) & _).
    cbn [login_codes] in Hin. apply in_app_or in Hin.
    destruct Hin as [Hin | [<- | []]].
    + elim (Hown x Hin Ex).
    + cbn in Ec. elim Hdiff. now symmetry.
Qed.

Lemma signup_then_verify_witness :
  verify (mkEnv 300999 0 300999 "u9" "c9") (JString "u1") (JString "000007")
         (db (snd (signup (mkEnv 1000 7 1001 "u1" "c1")
                     (JString "a@test.com") (JString "555") empty_store)))
  = (Verified verify_message "u1",
     mkWorld
       (mkStore
          (users (db (snd (signup (mkEnv 1000 7 1001 "u1" "c1")
                             (JString "a@test.com") (JString "555")
                             empty_store))))
          [LoginCode.mk "c1" "u1" "000007" 301000 true 1001])
       [QLoginCodeFindFirst "u1" "000007"; QLoginCodeUpdate "c1"]).
Proof.
  refine (proj1 (proj2 (proj2 (signup_then_verify
            (mkEnv 1000 7 1001 "u1" "c1")
            (mkEnv 300999 0 300999 "u9" "c9") empty_store
            "a@test.com"%string "555"%string
            ltac:(discriminate) ltac:(discriminate) ltac:(discriminate)
            (fun c (H : In c []) => match H with end)
            (fun u (H : In u []) => match H with end)
            (fun u (H : In u []) => match H with end)
            (fun c (H : In c []) => match H with end)))) _).
  simpl. lia.
Defined.

(** X10.  A code issued by login verifies once within five minutes.  When
    login finds the user, and every unconsumed code stored for that user
    with the same digits was created before the new one, verify with the
    returned userId and code succeeds and consumes the new code when the
    clock reading is less than five minutes after the one of login, and is
    answered Unauthorized (code expired) from five minutes on. *)
Theorem login_then_verify (env env' : Env) (s : Store)
  (email : string) (u : User.t)
  (He : email <> ""%string)
  (Hin : In u (users s)) (Hh : User.emailHash u = hashEmail email)
  (Hnd : NoDup (map User.emailHash (users s)))
  (Hid : User.id u <> ""%string)
  (Hc : forall c, In c (login_codes s) -> LoginCode.id c <> new_code_id env)
  (Hold : forall r, In r (login_codes s) ->
                    is_match (User.id u) (generateOTP (random env)) r ->
                    LoginCode.createdAt r < db_clock env) :
  let uid := User.id u in
  let otp := generateOTP (random env) in
  let s1 := db (snd (login env (JString email) s)) in
  let issued consumed :=
    LoginCode.mk (new_code_id env) uid otp (clock env + 5 * 60000) consumed
                 (db_clock env) in
  fst (login env (JString email) s)
  = CodeSent "Verification code sent to your phone." uid otp /\
  s1 = mkStore (users s) (login_codes s ++ [issued false]) /\
  (clock env' < clock env + 5 * 60000 ->
   verify env' (JString uid) (JString otp) s1 =
   (Verified verify_message uid,
    mkWorld (mkStore (users s) (login_codes s ++ [issued true]))
            [QLoginCodeFindFirst uid otp;
             QLoginCodeUpdate (new_code_id env)])) /\
  (clock env + 5 * 60000 <= clock env' ->
   verify env' (JString uid) (JString otp) s1 =
   (Fail Unauthorized "Code has expired. Please request a new one.",
    mkWorld s1 [QLoginCodeFindFirst uid otp])).
Proof.
  intros uid otp s1 issued.
  assert (F : find (fun v => (User.emailHash v =? hashEmail email)%string)
                (users s) = Some u)
    by (rewrite <- Hh; now apply find_unique_emailHash).
  pose proof (login_run_found env s email u He F (no_code_id _ _ Hc)) as R.
  unfold s1. rewrite R. cbn [fst snd db].
  split; [reflexivity|]. split; [reflexivity|]. split.
  - intros E.
    apply verify_new_row_in_time; trivial. apply generateOTP_nonempty.
  - intros E.
    apply verify_new_row_too_late; trivial. apply generateOTP_nonempty.
Qed.

Lemma login_then_verify_witness :
  verify (mkEnv 5000 0 5000 "u9" "c9") (JString "u1") (JString "000042")
         (db (snd (login (mkEnv 2000 42 2001 "u2" "c2") (JString "A@b.c ")
                     (mkStore [User.mk "u1" (hashEmail "a@b.c") "" 1001]
                        [LoginCode.mk "c1" "u1" "000042" 301000 false 1001]))))
  = (Verified verify_message "u1",
     mkWorld
       (mkStore [User.mk "u1" (hashEmail "a@b.c") "" 1001]
          [LoginCode.mk "c1" "u1" "000042" 301000 false 1001;
           LoginCode.mk "c2" "u1" "000042" 302000 true 2001])
       [QLoginCodeFindFirst "u1" "000042"; QLoginCodeUpdate "c2"]).
Proof.
  assert (Hh : hashEmail "a@b.c" = hashEmail "A@b.c ")
    by (vm_compute; reflexivity).
  refine (proj1 (proj2 (proj2 (login_then_verify
            (mkEnv 2000 42 2001 "u2" "c2") (mkEnv 5000 0 5000 "u9" "c9")
            (mkStore [User.mk "u1" (hashEmail "a@b.c") "" 1001]
               [LoginCode.mk "c1" "u1" "000042" 301000 false 1001])
            "A@b.c "%string (User.mk "u1" (hashEmail "a@b.c") "" 1001)
            ltac:(discriminate) (or_introl eq_refl) Hh _
            ltac:(discriminate) _ _))) _).
  - repeat constructor. intros [].
  - intros c [<- | []]. discriminate.
  - intros r [<- | []] _. simpl. lia.
  - simpl. lia.
Defined.

(** X11.  After a successful signup, the account answers to every
    spelling of its email that differs only in letter case and in leading
    or trailing whitespace: a further signup with such a spelling is
    answered Conflict and changes nothing, and a login with it finds the
    user that signup created and issues a code for that user. *)
Theorem signup_then_same_email (env : Env) (s : Store)
  (email phone : string)
  (He : email <> ""%string) (Hp : phone <> ""%string)
  (Hno : forall u, In u (users s) -> User.emailHash u <> hashEmail email)
  (Hu : forall u, In u (users s) -> User.id u <> new_user_id env)
  (Hc : forall c, In c (login_codes s) -> LoginCode.id c <> new_code_id env) :
  let s1 := db (snd (signup env (JString email) (JString phone) s)) in
  forall env' email',
    padded_case_variant email email' -> email' <> ""%string ->
    (forall phone', phone' <> ""%string ->
       signup env' (JString email') (JString phone') s1 =
       (Fail Conflict "Account with this email already exists",
        mkWorld s1 [QUserFindUnique (hashEmail email)])) /\
    ((forall c, In c (login_codes s1) -> LoginCode.id c <> new_code_id env') ->
     login env' (JString email') s1 =
     (CodeSent "Verification code sent to your phone." (new_user_id env)
               (generateOTP (random env')),
      mkWorld
        (mkStore (users s1)
           (login_codes s1 ++
              [LoginCode.mk (new_code_id env') (new_user_id env)
                            (generateOTP (random env'))
                            (clock env' + 5 * 60000) false (db_clock env')]))
        [QUserFindUnique (hashEmail email);
         QLoginCodeCreate (new_user_id env) (generateOTP (random env'))
                          (clock env' + 5 * 60000)])).
Proof.
  intros s1 env' email' Hv He'.
  pose proof (signup_run_created env s email phone He Hp
                (no_emailHash _ _ Hno) (no_user_id _ _ Hu)
                (no_code_id _ _ Hc)) as R.
  assert (Hh : hashEmail email' = hashEmail email).
  { unfold hashEmail.
    now rewrite (padded_case_variant_normalize email email' Hv). }
  unfold s1. rewrite R. cbn [snd db]. rewrite <- Hh. split.
  - intros phone' Hp'. apply signup_run_conflict; trivial.
    rewrite Hh.
    apply (has_emailHash_app (users s) _
             (User.mk (new_user_id env) (hashEmail email) (hashPhone phone)
                      (db_clock env))).
  - intros Hc'.
    apply (login_run_found env' _ email'
             (User.mk (new_user_id env) (hashEmail email) (hashPhone phone)
                      (db_clock env))); trivial.
    + rewrite Hh. cbn [users].
      apply (find_emailHash_app (users s)
               (User.mk (new_user_id env) (hashEmail email)
                        (hashPhone phone) (db_clock env))).
      exact (no_emailHash _ _ Hno).
    + now apply no_code_id.
Qed.

Lemma signup_then_same_email_witness :
  fst (login (mkEnv 2000 42 2001 "u2" "c2") (JString "a@test.com ")
         (db (snd (signup (mkEnv 1000 7 1001 "u1" "c1")
                     (JString "A@Test.com") (JString "555") empty_store))))
  = CodeSent "Verification code sent to your phone." "u1" "000042".
Proof.
  assert (V : padded_case_variant "A@Test.com" "a@test.com ").
  { exists ""%string, "A@Test.com"%string, ""%string,
      ""%string, "a@test.com"%string, " "%string.
    repeat split.
    repeat (apply cv_letter;
            [ first [ left; reflexivity
                    | right; left; split; reflexivity
                    | right; right; split; reflexivity ] | ]).
    apply cv_empty. }
  rewrite (proj2 (signup_then_same_email
             (mkEnv 1000 7 1001 "u1" "c1") empty_store
             "A@Test.com"%string "555"%string
             ltac:(discriminate) ltac:(discriminate)
             (fun u (H : In u []) => match H with end)
             (fun u (H : In u []) => match H with end)
             (fun c (H : In c []) => match H with end)
             (mkEnv 2000 42 2001 "u2" "c2") "a@test.com "%string V
             ltac:(discriminate))).
  - reflexivity.
  - intros c Hin E.
    rewrite (signup_run_created (mkEnv 1000 7 1001 "u1" "c1") empty_store
               "A@Test.com" "555") in Hin;
      [|discriminate|discriminate|reflexivity|reflexivity|reflexivity].
    cbn [snd db login_codes app] in Hin. destruct Hin as [<- | []].
    discriminate E.
Defined.

(** X12.  Signup is two inserts without a transaction.  When the insert of
    the login code fails after the user was inserted (in this model: the
    identifier generated for the code is already taken), signup answers
    InternalError but the user stays stored, without any login code; a
    further signup with the same email is then answered Conflict. *)
Theorem signup_is_not_atomic (env : Env) (s : Store)
  (email phone : string)
  (He : email <> ""%string) (Hp : phone <> ""%string)
  (Hno : forall u, In u (users s) -> User.emailHash u <> hashEmail email)
  (Hu : forall u, In u (users s) -> User.id u <> new_user_id env)
  (Hc : exists c, In c (login_codes s) /\ LoginCode.id c = new_code_id env) :
  let u := User.mk (new_user_id env) (hashEmail email) (hashPhone phone)
                   (db_clock env) in
  let s1 := mkStore (users s ++ [u]) (login_codes s) in
  signup env (JString email) (JString phone) s =
  (Fail InternalError "Internal server error",
   mkWorld s1
     [QUserFindUnique (hashEmail email);
      QUserCreate (hashEmail email) (hashPhone phone);
      QLoginCodeCreate (new_user_id env) (generateOTP (random env))
                       (clock env + 5 * 60000)]) /\
  (forall env' phone',
      phone' <> ""%string ->
      signup env' (JString email) (JString phone') s1 =
      (Fail Conflict "Account with this email already exists",
       mkWorld s1 [QUserFindUnique (hashEmail email)])).
Proof.
  intros u s1. split.
  - apply signup_run_code_id_taken; trivial.
    + now apply no_emailHash.
    + now apply no_user_id.
    + now apply has_code_id_iff.
  - intros env' phone' Hp'. apply signup_run_conflict; trivial.
    apply (has_emailHash_app (users s) (login_codes s) u).
Qed.

Lemma signup_is_not_atomic_witness :
  signup (mkEnv 2000 7 2001 "u2" "c1") (JString "b@test.com") (JString "555")
         (mkStore [User.mk "u1" "" "" 1001]
            [LoginCode.mk "c1" "u1" "123456" 301000 false 1001])
  = (Fail InternalError "Internal server error",
     mkWorld
       (mkStore [User.mk "u1" "" "" 1001;
                 User.mk "u2" (hashEmail "b@test.com") (hashPhone "555") 2001]
          [LoginCode.mk "c1" "u1" "123456" 301000 false 1001])
       [QUserFindUnique (hashEmail "b@test.com");
        QUserCreate (hashEmail "b@test.com") (hashPhone "555");
        QLoginCodeCreate "u2" "000007" 302000]).
Proof.
  assert (Hne : ""%string <> hashEmail "b@test.com")
    by (vm_compute; intros E; discriminate E).
  refine (proj1 (signup_is_not_atomic
            (mkEnv 2000 7 2001 "u2" "c1")
            (mkStore [User.mk "u1" "" "" 1001]
               [LoginCode.mk "c1" "u1" "123456" 301000 false 1001])
            "b@test.com"%string "555"%string
            ltac:(discriminate) ltac:(discriminate) _ _ _)).
  - intros u [<- | []]. exact Hne.
  - intros u [<- | []]. discriminate.
  - eexists. split; [left; reflexivity | reflexivity].
Defined.

(** ** Stores only grow *)

Section Growth.

Lemma same_row_later_refl r : same_row_later r r.
Proof. repeat split; trivial. Qed.

Lemma same_row_later_trans r1 r2 r3 :
  same_row_later r1 r2 -> same_row_later r2 r3 -> same_row_later r1 r3.
Proof.
  intros (A1 & A2 & A3 & A4 & A5 & A6) (B1 & B2 & B3 & B4 & B5 & B6).
  repeat split; try congruence. intros H. now apply B6, A6.
Qed.

Lemma same_row_later_set_consumed i r :
  same_row_later r (Prisma.set_consumed i r).
Proof.
  unfold Prisma.set_consumed.
  destruct (LoginCode.id r =? i)%string;
    [repeat split; trivial | apply same_row_later_refl].
Qed.

Lemma rows_later_refl l : Forall2 same_row_later l l.
Proof.
  induction l; constructor; [apply same_row_later_refl | assumption].
Qed.

Lemma rows_later_trans l1 : forall l2 l3,
  Forall2 same_row_later l1 l2 -> Forall2 same_row_later l2 l3 ->
  Forall2 same_row_later l1 l3.
Proof.
  induction l1 as [|r l1 IH]; intros l2 l3 H12 H23.
  - inversion H12; subst. inversion H23; subst. constructor.
  - inversion H12; subst. inversion H23; subst. constructor.
    + eapply same_row_later_trans; eassumption.
    + eapply IH; eassumption.
Qed.

Lemma rows_later_set_consumed i l :
  Forall2 same_row_later l (map (Prisma.set_consumed i) l).
Proof.
  induction l; constructor;
    [apply same_row_later_set_consumed | assumption].
Qed.

Lemma grows_refl s : grows s s.
Proof.
  split.
  - exists []. now rewrite app_nil_r.
  - exists (login_codes s), []. rewrite app_nil_r.
    split; [reflexivity | apply rows_later_refl].
Qed.

Lemma grows_append s us cs :
  grows s (mkStore (users s ++ us) (login_codes s ++ cs)).
Proof.
  split.
  - now exists us.
  - exists (login_codes s), cs. split; [reflexivity | apply rows_later_refl].
Qed.

Lemma grows_add_user s us : grows s (mkStore (users s ++ us) (login_codes s)).
Proof.
  pose proof (grows_append s us []) as G.
  now rewrite app_nil_r in G.
Qed.

Lemma grows_add_code s cs : grows s (mkStore (users s) (login_codes s ++ cs)).
Proof.
  pose proof (grows_append s [] cs) as G.
  now rewrite app_nil_r in G.
Qed.

Lemma grows_consume s lc : grows s (consume_in s lc).
Proof.
  split.
  - exists []. cbn. now rewrite app_nil_r.
  - exists (map (Prisma.set_consumed (LoginCode.id lc)) (login_codes s)), [].
    cbn. rewrite app_nil_r.
    split; [reflexivity | apply rows_later_set_consumed].
Qed.

Lemma grows_trans s1 s2 s3 : grows s1 s2 -> grows s2 s3 -> grows s1 s3.
Proof.
  intros [[us1 U1] (k1 & a1 & C1 & F1)] [[us2 U2] (k2 & a2 & C2 & F2)].
  split.
  - exists (us1 ++ us2). now rewrite U2, U1, app_assoc.
  - rewrite C1 in F2. apply Forall2_app_inv_l in F2.
    destruct F2 as (k2a & k2b & Fa & Fb & ->).
    exists k2a, (k2b ++ a2). split.
    + now rewrite C2, app_assoc.
    + eapply rows_later_trans; eassumption.
Qed.

End Growth.

(** X13.  Whatever the request, a handler never removes or alters a user
    and never removes a login code or alters one otherwise than by marking
    it consumed: the store after the request holds the users and login
    codes of the store before it, in place, followed by what was added.
    Login and verify leave the users as they are, verify adds no row, and
    a consumed code stays consumed over any sequence of requests. *)
Theorem handlers_only_grow (env : Env) (s : Store) (a b : JsonValue) :
  grows s (db (snd (signup env a b s))) /\
  grows s (db (snd (login env a s))) /\
  grows s (db (snd (verify env a b s))) /\
  users (db (snd (login env a s))) = users s /\
  users (db (snd (verify env a b s))) = users s /\
  map LoginCode.id (login_codes (db (snd (verify env a b s))))
  = map LoginCode.id (login_codes s) /\
  (forall s1 s2 s3, grows s1 s2 -> grows s2 s3 -> grows s1 s3).
Proof.
  split; [|split; [|split; [|split; [|split; [|split]]]]].
  - destruct (signup_fields env s a b)
      as [R | [R | (e & p & -> & -> & He & Hp)]];
      [rewrite R; apply grows_refl ..|].
    destruct (signup_strings env s e p He Hp)
      as [[_ R] | [(_ & _ & R) | [(_ & _ & _ & R) | (_ & _ & _ & R)]]];
      rewrite R; cbn [snd db];
      [apply grows_refl | apply grows_refl
      | apply grows_add_user | apply grows_append].
  - destruct (login_fields env s a) as [R | [R | (e & -> & He)]];
      [rewrite R; apply grows_refl ..|].
    destruct (login_strings env s e He)
      as [[_ R] | (u & _ & _ & [[_ R] | [_ R]])];
      rewrite R; cbn [snd db];
      [apply grows_refl | apply grows_refl | apply grows_add_code].
  - destruct (verify_fields env s a b)
      as [R | [R | (uid & c & -> & -> & Hu & Hc)]];
      [rewrite R; apply grows_refl ..|].
    destruct (verify_strings env s uid c Hu Hc)
      as [[_ R] | (lc & _ & [[_ R] | [_ R]])];
      rewrite R; cbn [snd db];
      [apply grows_refl | apply grows_refl | apply grows_consume].
  - destruct (login_fields env s a) as [R | [R | (e & -> & He)]];
      [rewrite R; reflexivity ..|].
    destruct (login_strings env s e He)
      as [[_ R] | (u & _ & _ & [[_ R] | [_ R]])];
      rewrite R; reflexivity.
  - destruct (verify_fields env s a b)
      as [R | [R | (uid & c & -> & -> & Hu & Hc)]];
      [rewrite R; reflexivity ..|].
    destruct (verify_strings env s uid c Hu Hc)
      as [[_ R] | (lc & _ & [[_ R] | [_ R]])];
      rewrite R; reflexivity.
  - destruct (verify_fields env s a b)
      as [R | [R | (uid & c & -> & -> & Hu & Hc)]];
      [rewrite R; reflexivity ..|].
    destruct (verify_strings env s uid c Hu Hc)
      as [[_ R] | (lc & _ & [[_ R] | [_ R]])];
      rewrite R; try reflexivity.
    cbn [snd db consume_in login_codes]. rewrite map_map.
    apply map_ext. intros r. unfold Prisma.set_consumed.
    now destruct (LoginCode.id r =? LoginCode.id lc)%string.
  - apply grows_trans.
Qed.



(** ** Interleaved signup requests *)

Section SignupRace.

Lemma no_false_all_true l :
  count_occ bool_dec l false = 0%nat ->
  l = repeat true (count_occ bool_dec l true).
Proof.
  induction l as [|[] l IH]; simpl; intros H;
    [reflexivity | now rewrite <- IH | discriminate].
Qed.

Lemma no_true_all_false l :
  count_occ bool_dec l true = 0%nat ->
  l = repeat false (count_occ bool_dec l false).
Proof.
  induction l as [|[] l IH]; simpl; intros H;
    [reflexivity | discriminate | now rewrite <- IH].
Qed.

(** Every schedule is among the interleavings of its two counts. *)
Lemma interleavings_complete l :
  In l (interleavings (count_occ bool_dec l true)
                      (count_occ bool_dec l false)).
Proof.
  induction l as [|b l IH]; [now left|].
  destruct b; cbn [count_occ]; simpl (bool_dec _ _).
  - destruct (count_occ bool_dec l false) as [|m] eqn:Em.
    + left. cbn [repeat]. f_equal. symmetry.
      now apply no_false_all_true.
    + cbn [interleavings]. apply in_or_app. left.
      apply in_map. exact IH.
  - destruct (count_occ bool_dec l true) as [|n] eqn:En.
    + left. cbn [repeat]. f_equal. symmetry.
      now apply no_true_all_false.
    + cbn [interleavings]. apply in_or_app. right.
      apply in_map. exact IH.
Qed.

(** A thread that runs alone is the handler. *)
Lemma signup_alone env email phone t2 s :
  run_signups [true; true; true] (signup_start env email phone) t2
              (mkWorld s []) =
  (SignupResponded (fst (signup env email phone s)), t2,
   snd (signup env email phone s)).
Proof.
  unfold signup, try_catch, signup_body, signup_start.
  destruct (negb (truthy email) || negb (truthy phone)); [reflexivity|].
  destruct email as [| |b|n|e]; try reflexivity.
  destruct phone as [| |b|n|p]; try reflexivity.
  cbv beta iota delta [call_on_string].
  generalize (hashEmail e) (hashPhone p). intros eh ph.
  unfold run_signups, signup_step, signup_resume, bind, ret.
  cbn [fst snd].
  destruct (Prisma.user_findUnique eh (mkWorld s [])) as [[[u|]|x] w];
    try reflexivity.
  destruct (Prisma.user_create env eh ph w) as [[u|x] w']; try reflexivity.
  destruct (Prisma.loginCode_create env (User.id u)
              (generateOTP (random env)) (getOTPExpiry (clock env) 5) w')
    as [[r|x] w'']; reflexivity.
Qed.

Ltac run_step :=
  cbv beta iota zeta delta
    [signup_step signup_resume getOTPExpiry
     Prisma.user_findUnique Prisma.user_create Prisma.loginCode_create
     bind send get_store put_store ret throw negb];
  cbn [db sent users login_codes User.id].

Lemma step_user_find env h ph w :
  signup_step (AwaitUserFind env h ph) w =
  (if Prisma.has_emailHash (db w) h
   then SignupResponded
          (Fail Conflict "Account with this email already exists")
   else AwaitUserCreate env h ph,
   mkWorld (db w) (sent w ++ [QUserFindUnique h])).
Proof.
  run_step. unfold Prisma.has_emailHash.
  destruct (find (fun u => (User.emailHash u =? h)%string) (users (db w)))
    as [u|] eqn:F.
  - destruct (find_some _ _ F) as [Hin Hh].
    assert (E : existsb (fun u => (User.emailHash u =? h)%string)
                  (users (db w)) = true)
      by (apply existsb_exists; now exists u).
    now rewrite E.
  - now rewrite (find_none_existsb _ _ F).
Qed.

Lemma step_user_create_duplicate env h ph w :
  Prisma.has_emailHash (db w) h = true ->
  signup_step (AwaitUserCreate env h ph) w =
  (SignupResponded (Fail InternalError "Internal server error"),
   mkWorld (db w) (sent w ++ [QUserCreate h ph])).
Proof.
  intros H. run_step. rewrite H.
  now destruct (Prisma.has_user_id (db w) (new_user_id env)).
Qed.

Lemma step_user_create env h ph w :
  Prisma.has_emailHash (db w) h = false ->
  Prisma.has_user_id (db w) (new_user_id env) = false ->
  signup_step (AwaitUserCreate env h ph) w =
  (AwaitCodeCreate env (User.mk (new_user_id env) h ph (db_clock env)),
   mkWorld
     (mkStore (users (db w) ++ [User.mk (new_user_id env) h ph (db_clock env)])
              (login_codes (db w)))
     (sent w ++ [QUserCreate h ph])).
Proof. intros H1 H2. run_step. now rewrite H2, H1. Qed.

Lemma step_code_create env u w :
  Prisma.has_code_id (db w) (new_code_id env) = false ->
  Prisma.has_user_id (db w) (User.id u) = true ->
  signup_step (AwaitCodeCreate env u) w =
  (SignupResponded
     (Created signup_message (User.id u) (generateOTP (random env))),
   mkWorld
     (mkStore (users (db w))
        (login_codes (db w) ++
           [LoginCode.mk (new_code_id env) (User.id u)
                         (generateOTP (random env))
                         (clock env + 5 * 60000) false (db_clock env)]))
     (sent w ++ [QLoginCodeCreate (User.id u) (generateOTP (random env))
                                  (clock env + 5 * 60000)])).
Proof. intros H1 H2. run_step. now rewrite H1, H2. Qed.

Lemma step_responded r w :
  signup_step (SignupResponded r) w = (SignupResponded r, w).
Proof. reflexivity. Qed.

End SignupRace.

Section SignupRaceSteps.

Lemma step_user_find_free env h ph w :
  Prisma.has_emailHash (db w) h = false ->
  signup_step (AwaitUserFind env h ph) w =
  (AwaitUserCreate env h ph, mkWorld (db w) (sent w ++ [QUserFindUnique h])).
Proof. intros H. now rewrite step_user_find, H. Qed.

Lemma step_user_find_taken env h ph w :
  Prisma.has_emailHash (db w) h = true ->
  signup_step (AwaitUserFind env h ph) w =
  (SignupResponded (Fail Conflict "Account with this email already exists"),
   mkWorld (db w) (sent w ++ [QUserFindUnique h])).
Proof. intros H. now rewrite step_user_find, H. Qed.

End SignupRaceSteps.

(** X15.  Two signup requests in flight for the same normalized email, on
    a store without that account.  However their three storage operations
    interleave, exactly one request is answered Created and exactly one
    user and one login code are stored; the other request is answered
    Conflict when its lookup ran after the winner's insert, and in any
    case at least InternalError: when both lookups ran before both
    inserts, the unique index makes the second insert throw and the loser
    is answered InternalError, not Conflict. *)
Theorem concurrent_signup_outcomes (env1 env2 : Env) (s : Store)
  (e1 p1 e2 p2 : string)
  (He1 : e1 <> ""%string) (Hp1 : p1 <> ""%string)
  (He2 : e2 <> ""%string) (Hp2 : p2 <> ""%string)
  (Hsame : hashEmail e2 = hashEmail e1)
  (Hno : forall u, In u (users s) -> User.emailHash u <> hashEmail e1)
  (Hu1 : forall u, In u (users s) -> User.id u <> new_user_id env1)
  (Hu2 : forall u, In u (users s) -> User.id u <> new_user_id env2)
  (Hc1 : forall c, In c (login_codes s) -> LoginCode.id c <> new_code_id env1)
  (Hc2 : forall c, In c (login_codes s) -> LoginCode.id c <> new_code_id env2) :
  let t1 := signup_start env1 (JString e1) (JString p1) in
  let t2 := signup_start env2 (JString e2) (JString p2) in
  let created env :=
    SignupResponded
      (Created signup_message (new_user_id env) (generateOTP (random env))) in
  let conflict :=
    SignupResponded (Fail Conflict "Account with this email already exists") in
  let failed :=
    SignupResponded (Fail InternalError "Internal server error") in
  let after env phone :=
    mkStore
      (users s ++ [User.mk (new_user_id env) (hashEmail e1) (hashPhone phone)
                           (db_clock env)])
      (login_codes s ++
         [LoginCode.mk (new_code_id env) (new_user_id env)
                       (generateOTP (random env))
                       (clock env + 5 * 60000) false (db_clock env)]) in
  (forall schedule,
      count_occ bool_dec schedule true = 3%nat ->
      count_occ bool_dec schedule false = 3%nat ->
      let out := run_signups schedule t1 t2 (mkWorld s []) in
      ((fst out = (created env1, conflict) \/
        fst out = (created env1, failed)) /\
       db (snd out) = after env1 p1) \/
      ((fst out = (conflict, created env2) \/
        fst out = (failed, created env2)) /\
       db (snd out) = after env2 p2)) /\
  (forall rest,
      In rest (interleavings 2 2) ->
      (fst (run_signups (true :: false :: rest) t1 t2 (mkWorld s []))
       = (created env1, failed) \/
       fst (run_signups (true :: false :: rest) t1 t2 (mkWorld s []))
       = (failed, created env2)) /\
      (fst (run_signups (false :: true :: rest) t1 t2 (mkWorld s []))
       = (created env1, failed) \/
       fst (run_signups (false :: true :: rest) t1 t2 (mkWorld s []))
       = (failed, created env2))) /\
  fst (run_signups [true; true; true; false; false; false] t1 t2
         (mkWorld s [])) = (created env1, conflict) /\
  fst (run_signups [false; false; false; true; true; true] t1 t2
         (mkWorld s [])) = (conflict, created env2).
Proof.
  intros t1 t2 created conflict failed after.
  assert (E1 : t1 = AwaitUserFind env1 (hashEmail e1) (hashPhone p1)).
  { unfold t1, signup_start.
    now rewrite (truthy_string _ He1), (truthy_string _ Hp1). }
  assert (E2 : t2 = AwaitUserFind env2 (hashEmail e1) (hashPhone p2)).
  { unfold t2, signup_start.
    now rewrite (truthy_string _ He2), (truthy_string _ Hp2), Hsame. }
  rewrite E1, E2. clear E1 E2 t1 t2. subst created conflict failed after.
  pose proof (no_emailHash _ _ Hno) as Xh.
  pose proof (no_user_id _ _ Hu1) as Xu1.
  pose proof (no_user_id _ _ Hu2) as Xu2.
  pose proof (no_code_id _ _ Hc1) as Xc1.
  pose proof (no_code_id _ _ Hc2) as Xc2.
  unfold Prisma.has_emailHash in Xh.
  unfold Prisma.has_user_id in Xu1, Xu2.
  unfold Prisma.has_code_id in Xc1, Xc2.
  generalize dependent (hashEmail e1). intros h _ _ Xh.
  generalize (hashPhone p1) (hashPhone p2). intros ph1 ph2.
  assert (all_schedules :
    forall schedule, In schedule (interleavings 3 3) ->
      let out :=
        run_signups schedule (AwaitUserFind env1 h ph1)
                    (AwaitUserFind env2 h ph2) (mkWorld s []) in
      (((fst out
        = (SignupResponded
             (Created signup_message (new_user_id env1)
                      (generateOTP (random env1))),
           SignupResponded
             (Fail Conflict "Account with this email already exists")) \/
        fst out
        = (SignupResponded
             (Created signup_message (new_user_id env1)
                      (generateOTP (random env1))),
           SignupResponded (Fail InternalError "Internal server error"))) /\
       db (snd out)
       = mkStore
           (users s ++ [User.mk (new_user_id env1) h ph1 (db_clock env1)])
           (login_codes s ++
              [LoginCode.mk (new_code_id env1) (new_user_id env1)
                            (generateOTP (random env1))
                            (clock env1 + 5 * 60000) false (db_clock env1)]))
      \/
      ((fst out
        = (SignupResponded
             (Fail Conflict "Account with this email already exists"),
           SignupResponded
             (Created signup_message (new_user_id env2)
                      (generateOTP (random env2))))
        \/
        fst out
        = (SignupResponded (Fail InternalError "Internal server error"),
           SignupResponded
             (Created signup_message (new_user_id env2)
                      (generateOTP (random env2)))))
       /\
       db (snd out)
       = mkStore
           (users s ++ [User.mk (new_user_id env2) h ph2 (db_clock env2)])
           (login_codes s ++
              [LoginCode.mk (new_code_id env2) (new_user_id env2)
                            (generateOTP (random env2))
                            (clock env2 + 5 * 60000) false (db_clock env2)])))
      /\
      (forall rest, schedule = true :: false :: rest \/
                    schedule = false :: true :: rest ->
         fst out
         = (SignupResponded
             (Created signup_message (new_user_id env1)
                      (generateOTP (random env1))),
            SignupResponded (Fail InternalError "Internal server error")) \/
         fst out
         = (SignupResponded (Fail InternalError "Internal server error"),
            SignupResponded
             (Created signup_message (new_user_id env2)
                      (generateOTP (random env2)))))
      /\
      (schedule = [true; true; true; false; false; false] ->
       fst out
       = (SignupResponded
             (Created signup_message (new_user_id env1)
                      (generateOTP (random env1))),
          SignupResponded
            (Fail Conflict "Account with this email already exists"))) /\
      (schedule = [false; false; false; true; true; true] ->
       fst out
       = (SignupResponded
            (Fail Conflict "Account with this email already exists"),
          SignupResponded
             (Created signup_message (new_user_id env2)
                      (generateOTP (random env2)))))).
  { intros schedule Hs. cbn in Hs.
    repeat (destruct Hs as [<- | Hs]); [..|destruct Hs];
      cbn [run_signups];
      repeat
        (first
           [ rewrite step_responded
           | rewrite step_user_find_free
               by (unfold Prisma.has_emailHash; cbn [db users];
                   exact Xh)
           | rewrite step_user_find_taken
               by (unfold Prisma.has_emailHash; cbn [db users];
                   rewrite existsb_app; cbn [existsb User.emailHash];
                   now rewrite String.eqb_refl, orb_true_r)
           | rewrite step_user_create
               by (first
                     [ unfold Prisma.has_emailHash; cbn [db users]; exact Xh
                     | unfold Prisma.has_user_id; cbn [db users];
                       first [exact Xu1 | exact Xu2] ])
           | rewrite step_user_create_duplicate
               by (unfold Prisma.has_emailHash; cbn [db users];
                   rewrite existsb_app; cbn [existsb User.emailHash];
                   now rewrite String.eqb_refl, orb_true_r)
           | rewrite step_code_create
               by (first
                     [ unfold Prisma.has_code_id; cbn [db login_codes];
                       first [exact Xc1 | exact Xc2]
                     | unfold Prisma.has_user_id; cbn [db users User.id];
                       rewrite existsb_app; cbn [existsb User.id];
                       now rewrite String.eqb_refl, orb_true_r ]) ];
         cbn [db sent app users login_codes User.id]);
      cbn [fst snd db];
      (split;
       [ first [ left; split; [first [left; reflexivity | right; reflexivity]
                              | reflexivity]
               | right; split; [first [left; reflexivity | right; reflexivity]
                               | reflexivity] ]
       | split; [|split] ]);
      try (intros rest [E | E]; try discriminate E;
           first [left; reflexivity | right; reflexivity]);
      try (intros E; try discriminate E; reflexivity). }
  split; [|split; [|split]].
  - intros schedule Ht Hf out.
    pose proof (interleavings_complete schedule) as Hin.
    rewrite Ht, Hf in Hin.
    exact (proj1 (all_schedules schedule Hin)).
  - intros rest Hr. split.
    + apply (proj1 (proj2 (all_schedules (true :: false :: rest)
               ltac:(cbn [interleavings]; apply in_or_app; left;
                     apply in_map; apply in_or_app; right;
                     apply in_map; exact Hr))) rest).
      now left.
    + apply (proj1 (proj2 (all_schedules (false :: true :: rest)
               ltac:(cbn [interleavings]; apply in_or_app; right;
                     apply in_map; apply in_or_app; left;
                     apply in_map; exact Hr))) rest).
      now right.
  - apply (proj1 (proj2 (proj2 (all_schedules
             [true; true; true; false; false; false]
             ltac:(cbn; tauto))))). reflexivity.
  - apply (proj2 (proj2 (proj2 (all_schedules
             [false; false; false; true; true; true]
             ltac:(cbn; tauto))))). reflexivity.
Qed.

Lemma concurrent_signup_outcomes_witness :
  fst (run_signups [true; true; true; false; false; false]
         (signup_start (mkEnv 1000 7 1001 "u1" "c1")
                       (JString "a@test.com") (JString "555"))
         (signup_start (mkEnv 1002 8 1003 "u2" "c2")
                       (JString "A@Test.com ") (JString "555"))
         (mkWorld empty_store []))
  = (SignupResponded (Created signup_message "u1" "000007"),
     SignupResponded (Fail Conflict "Account with this email already exists"))
  /\
  (fst (run_signups [true; false; true; false; true; false]
          (signup_start (mkEnv 1000 7 1001 "u1" "c1")
                        (JString "a@test.com") (JString "555"))
          (signup_start (mkEnv 1002 8 1003 "u2" "c2")
                        (JString "A@Test.com ") (JString "555"))
          (mkWorld empty_store []))
   = (SignupResponded (Created signup_message "u1" "000007"),
      SignupResponded (Fail InternalError "Internal server error")) \/
   fst (run_signups [true; false; true; false; true; false]
          (signup_start (mkEnv 1000 7 1001 "u1" "c1")
                        (JString "a@test.com") (JString "555"))
          (signup_start (mkEnv 1002 8 1003 "u2" "c2")
                        (JString "A@Test.com ") (JString "555"))
          (mkWorld empty_store []))
   = (SignupResponded (Fail InternalError "Internal server error"),
      SignupResponded (Created signup_message "u2" "000008"))).
Proof.
  assert (Hsame : hashEmail "A@Test.com " = hashEmail "a@test.com")
    by (vm_compute; reflexivity).
  destruct (concurrent_signup_outcomes
              (mkEnv 1000 7 1001 "u1" "c1") (mkEnv 1002 8 1003 "u2" "c2")
              empty_store
              "a@test.com"%string "555"%string
              "A@Test.com "%string "555"%string
              ltac:(discriminate) ltac:(discriminate)
              ltac:(discriminate) ltac:(discriminate) Hsame
              (fun u (H : In u []) => match H with end)
              (fun u (H : In u []) => match H with end)
              (fun u (H : In u []) => match H with end)
              (fun c (H : In c []) => match H with end)
              (fun c (H : In c []) => match H with end))
    as (_ & Hrace & Hserial & _).
  split; [exact Hserial|].
  exact (proj1 (Hrace [true; false; true; false]
                  ltac:(cbn; tauto))).
Defined.
